(** * mrs1000_node: session loop, layer routing and cloud assembly

    A shallow embedding of [src/mrs1000_node.cpp]: [getLayerIndex] and the two
    nested loops of [main].  The driver ([MRS1000]), the clock and the
    publishers are collaborators: what they answer is the input of the model
    (a script of connection attempts and of loop iterations), what is asked of
    them is its output (a trace of events). *)

From Stdlib Require Import ZArith QArith.
From stdpp Require Import base numbers list strings.

Set Default Proof Using "Type".
Local Open Scope string_scope.
Local Open Scope list_scope.
Local Open Scope nat_scope.

(** ** Layer identifiers *)

(** The enumeration [CoLaALayers] is declared in a header of the driver
    library; its four enumerators are taken as parameters.  They are the case
    labels of one [switch], hence pairwise different values. *)
Record CoLaALayers := {
  Layer1 : Z;
  Layer2 : Z;
  Layer3 : Z;
  Layer4 : Z;
  layers_distinct : NoDup [Layer2; Layer3; Layer1; Layer4]
}.

(** ** Arithmetic of the timing fields *)

(** [double] arithmetic as the node uses it: the conversion of an [int], the
    division, and the rounding of a [double] stored in a [float32] field. *)
Class FloatOps (F : Type) := {
  of_int : Z → F;
  fdiv : F → F → F;
  to_float32 : F → F
}.

(** Exact arithmetic, for the examples. *)
#[export] Instance Q_ops : FloatOps Q := {|
  of_int := inject_Z;
  fdiv := Qdiv;
  to_float32 := Qred
|}.

(** ** Data *)

Definition RosTime := Z.

(** [size_t scan_count = 275 * 4 + 1]. *)
Definition scan_count : nat := 275 * 4 + 1.

(** [cloud.height = 4]. *)
Definition cloud_height : nat := 4.

Record ScanConfig := {
  scan_frequency : Z;
  num_sectors : Z;
  angualar_resolution : Z;
  start_angle : Z;
  stop_angle : Z
}.

Record ScanOutputRange := {
  angular_resolution : Z;
  range_start_angle : Z;
  range_stop_angle : Z
}.

Record ScanDataConfig := {
  output_channel : Z;
  remission : bool;
  resolution : Z;
  encoder : Z;
  position : bool;
  device_name : bool;
  comment : bool;
  timestamp : Z;
  output_interval : Z
}.

(** The configuration [main] pushes to the device. *)
Definition data_cfg : ScanDataConfig := {|
  output_channel := 7;
  remission := true;
  resolution := 0;
  encoder := 0;
  position := false;
  device_name := false;
  comment := false;
  timestamp := 1;
  output_interval := 1
|}.

Section Data.
Context {F : Type}.

(** One point of the cloud: the four [FLOAT32] fields declared with
    [setPointCloud2Fields]. *)
Record Point := {
  px : F;
  py : F;
  pz : F;
  pint : F
}.

(** [ScanData]: of a measurement unit the model keeps
    [header.status_info.layer_angle] and the points that the conversion to
    the cloud derives from its channels.  The identifier is the 16-bit value
    that [getLayerIndex] receives and that [main] compares with the
    enumerators. *)
Record ScanData := {
  layer_angle : Z;
  samples : list Point
}.

Record LaserScan := {
  scan_time : F;
  time_increment : F;
  scan_data : option ScanData
}.

Record MultiEchoLaserScan := {
  multi_scan_time : F;
  multi_time_increment : F;
  multi_data : option ScanData
}.

Record PointCloud2 := {
  stamp : RosTime;
  data : list Point
}.

(** The four [PointCloud2Iterator]s, as offsets in points from the start of
    the buffer. *)
Record Cursors := {
  iter_x : nat;
  iter_y : nat;
  iter_z : nat;
  iter_int : nat
}.

(** The messages declared before the outer loop: they live across
    sessions. *)
Record Node := {
  cloud : PointCloud2;
  multi_scan : MultiEchoLaserScan;
  scan : LaserScan
}.

(** The state of the read loop: the messages, and the iterators and the
    flag declared in the body of the outer loop. *)
Record Stream := {
  node : Node;
  iters : Cursors;
  synced : bool
}.
End Data.

Arguments Point : clear implicits.
Arguments ScanData : clear implicits.
Arguments LaserScan : clear implicits.
Arguments MultiEchoLaserScan : clear implicits.
Arguments PointCloud2 : clear implicits.
Arguments Node : clear implicits.
Arguments Stream : clear implicits.

(** ** Events *)

Inductive Level := DEBUG | INFO | WARN | ERROR.

Inductive Call :=
  | Connect (host : string) (port : Z)
  | Login
  | GetScanConfig
  | GetScanOutputRange
  | SetScanDataConfig (c : ScanDataConfig)
  | SetEchoFilterAllEchoes
  | EnableRangingApplication
  | SaveConfig
  | StartDevice
  | StartMeasurement
  | ScanContinuous (on : bool)
  | GetScanData
  | Disconnect.

Inductive Event {F : Type} :=
  | Log (lvl : Level) (msg : string)
  | Sleep (seconds : Z)
  | Driver (c : Call)
  | PublishScan (slot : nat) (m : LaserScan F)
  | PublishMulti (slot : nat) (m : MultiEchoLaserScan F)
  | FillCloud (at_ : Cursors) (d : ScanData F)
  | PublishCloud (c : PointCloud2 F)
  | SpinOnce.
Arguments Event : clear implicits.

(** ** Inputs *)

(** One iteration of the read loop: what [ros::Time::now()] and
    [laser.getScanData] answer ([None] is the time-out). *)
Record Tick {F : Type} := {
  now : RosTime;
  read : option (ScanData F)
}.
Arguments Tick : clear implicits.

(** One iteration of the outer loop: the connection is refused, or it is
    opened, the device reports its configuration and the read loop runs on
    [ticks].  A script that ends is [ros::ok()] turning false. *)
Inductive Attempt {F : Type} :=
  | Refused
  | Connected (cfg : ScanConfig) (range : ScanOutputRange) (ticks : list (Tick F)).
Arguments Attempt : clear implicits.

Inductive Flow := Next | Break.

(** How the read loop was left. *)
Inductive Ended := Shutdown | TimedOut.

(** ** The node *)

Section Mrs1000.
Context {F : Type} `{!FloatOps F}.
Context (ids : CoLaALayers).
(** The parameters [host] and [port] of the node. *)
Context (host : string) (port : Z).

Implicit Types (d : ScanData F) (st : Stream F) (n : Node F) (t : Tick F).

(** *** Layer router *)

Definition getLayerIndex (layer : Z) : nat :=
  if (layer =? Layer2 ids)%Z then 0
  else if (layer =? Layer3 ids)%Z then 1
  else if (layer =? Layer1 ids)%Z then 2
  else if (layer =? Layer4 ids)%Z then 3
  else 0.

(** The topics behind [layer_pubs] and [layer_multi_pubs], in the order of
    the [push_back]s. *)
Definition layer_pubs : list string :=
  ["scan_layer_2"; "scan_layer_3"; "scan_layer_1"; "scan_layer_4"].

Definition layer_multi_pubs : list string :=
  ["scan_layer_2_multi"; "scan_layer_3_multi"; "scan_layer_1_multi"; "scan_layer_4_multi"].

(** Modelled from the spec: [CoLaAConversion::fillLaserScan] is not in the
    sources at hand; it fills the 2D scan message with the values of the
    unit, one per beam.  The model records the unit the message was filled
    from and leaves the timing fields as they are. *)
Definition fillLaserScan (m : LaserScan F) d : LaserScan F :=
  {| scan_time := scan_time m;
     time_increment := time_increment m;
     scan_data := Some d |}.

(** Modelled from the spec: [CoLaAConversion::fillMultiEchoLaserScan] is not
    in the sources at hand; it fills the multi-return message with the
    returns of the unit. *)
Definition fillMultiEchoLaserScan (m : MultiEchoLaserScan F) d : MultiEchoLaserScan F :=
  {| multi_scan_time := multi_scan_time m;
     multi_time_increment := multi_time_increment m;
     multi_data := Some d |}.

(** *** Cloud buffer *)

Definition set_px (v : F) (p : Point F) : Point F :=
  {| px := v; py := py p; pz := pz p; pint := pint p |}.
Definition set_py (v : F) (p : Point F) : Point F :=
  {| px := px p; py := v; pz := pz p; pint := pint p |}.
Definition set_pz (v : F) (p : Point F) : Point F :=
  {| px := px p; py := py p; pz := v; pint := pint p |}.
Definition set_pint (v : F) (p : Point F) : Point F :=
  {| px := px p; py := py p; pz := pz p; pint := v |}.

(** The iterators as constructed on the cloud: at its first point. *)
Definition start_iters : Cursors :=
  {| iter_x := 0; iter_y := 0; iter_z := 0; iter_int := 0 |}.

(** [++iter_x, ++iter_y, ++iter_z, ++iter_int]. *)
Definition advance (it : Cursors) : Cursors :=
  {| iter_x := S (iter_x it);
     iter_y := S (iter_y it);
     iter_z := S (iter_z it);
     iter_int := S (iter_int it) |}.

(** Each iterator writes its own field of the point it stands at.  An
    iterator does not check bounds; the model keeps of the buffer the
    points of the message, a write past its end leaves them as they are. *)
Definition write_point (it : Cursors) (buf : list (Point F)) (s : Point F) : list (Point F) :=
  alter (set_pint (pint s)) (iter_int it)
    (alter (set_pz (pz s)) (iter_z it)
      (alter (set_py (py s)) (iter_y it)
        (alter (set_px (px s)) (iter_x it) buf))).

(** Modelled from the spec: the loop of [CoLaAConversion::fillPointCloud2],
    which is not in the sources at hand; sample after sample is written at
    the four cursors, which then move on by one point. *)
Fixpoint fill_points (it : Cursors) (buf : list (Point F)) (ss : list (Point F))
    : Cursors * list (Point F) :=
  match ss with
  | [] => (it, buf)
  | s :: ss' => fill_points (advance it) (write_point it buf s) ss'
  end.

(** Modelled from the spec: [CoLaAConversion::fillPointCloud2] is not in the
    sources at hand; it appends the samples of the unit at the current
    position of each of the four cursors and advances each cursor by the
    number of samples written.  The header of the cloud is left alone. *)
Definition fillPointCloud2 (it : Cursors) (c : PointCloud2 F) d
    : Cursors * PointCloud2 F :=
  let '(it', buf) := fill_points it (data c) (samples d) in
  (it', {| stamp := stamp c; data := buf |}).

(** *** One iteration of the read loop *)

(** [cloud.header.stamp = start]. *)
Definition stamp_cloud (start : RosTime) st : Stream F :=
  {| node := {| cloud := {| stamp := start; data := data (cloud (node st)) |};
                multi_scan := multi_scan (node st);
                scan := scan (node st) |};
     iters := iters st;
     synced := synced st |}.

(** Lines 200 to 207: both messages are filled and published through the
    publisher at [getLayerIndex]. *)
Definition route st d : Stream F * list (Event F) :=
  let scan' := fillLaserScan (scan (node st)) d in
  let multi' := fillMultiEchoLaserScan (multi_scan (node st)) d in
  ({| node := {| cloud := cloud (node st); multi_scan := multi'; scan := scan' |};
      iters := iters st;
      synced := synced st |},
   [ Log DEBUG "Publishing scan data";
     PublishScan (getLayerIndex (layer_angle d)) scan';
     Log DEBUG "Publishing multi scan data.";
     PublishMulti (getLayerIndex (layer_angle d)) multi' ]).

(** Lines 210 to 217: the first layer resets the iterators. *)
Definition sync st d : Stream F :=
  if (layer_angle d =? Layer2 ids)%Z
  then {| node := node st; iters := start_iters; synced := true |}
  else st.

(** Lines 222 to 229: the unit is written at the iterators, and the last
    layer publishes the cloud. *)
Definition assemble st d : Stream F * list (Event F) :=
  let '(it', cloud') := fillPointCloud2 (iters st) (cloud (node st)) d in
  ({| node := {| cloud := cloud';
                 multi_scan := multi_scan (node st);
                 scan := scan (node st) |};
      iters := it';
      synced := synced st |},
   FillCloud (iters st) d ::
   if (layer_angle d =? Layer4 ids)%Z
   then [Log DEBUG "Publishing scan data."; PublishCloud cloud']
   else []).

(** The branch of a successful read, lines 200 to 229: [continue] leaves it
    before the cloud is touched, and before [ros::spinOnce()]. *)
Definition on_unit st d : Stream F * list (Event F) :=
  let '(st1, routed) := route st d in
  let st2 := sync st1 d in
  if synced st2 then
    let '(st3, assembled) := assemble st2 d in
    (st3, routed ++ assembled ++ [SpinOnce])
  else
    (st2, routed).

Definition iteration st t : Stream F * list (Event F) * Flow :=
  let st0 := stamp_cloud (now t) st in
  match read t with
  | Some d =>
      let '(st1, ev) := on_unit st0 d in
      (st1, [Log DEBUG "Reading scan data."; Driver GetScanData] ++ ev, Next)
  | None =>
      (st0,
       [ Log DEBUG "Reading scan data."; Driver GetScanData;
         Log ERROR "Laser timed out on delivering scan, attempting to reinitialize.";
         Sleep 10 ],
       Break)
  end.

(** The read loop, [while (ros::ok())] around [iteration]. *)
Fixpoint stream st (ticks : list (Tick F)) : Stream F * list (Event F) * Ended :=
  match ticks with
  | [] => (st, [], Shutdown)
  | t :: ticks' =>
      let '(st', ev, flow) := iteration st t in
      match flow with
      | Break => (st', ev, TimedOut)
      | Next =>
          let '(st'', ev', e) := stream st' ticks' in
          (st'', ev ++ ev', e)
      end
  end.

(** *** The outer loop *)

(** Lines 140 to 143. *)
Definition set_timing n (cfg : ScanConfig) (range : ScanOutputRange) : Node F :=
  let multi_scan_time' :=
    to_float32 (fdiv (of_int 100) (of_int (scan_frequency cfg))) in
  let multi_time_increment' :=
    to_float32
      (fdiv (fdiv (fdiv (of_int (angular_resolution range)) (of_int 10000))
                  (of_int 360))
            multi_scan_time') in
  {| cloud := cloud n;
     multi_scan := {| multi_scan_time := multi_scan_time';
                      multi_time_increment := multi_time_increment';
                      multi_data := multi_data (multi_scan n) |};
     scan := {| scan_time := multi_scan_time';
                time_increment := multi_time_increment';
                scan_data := scan_data (scan n) |} |}.

(** The state in which the read loop is entered (lines 178 to 186). *)
Definition enter_streaming n (cfg : ScanConfig) (range : ScanOutputRange) : Stream F :=
  {| node := set_timing n cfg range; iters := start_iters; synced := false |}.

Definition connecting : list (Event F) :=
  [Log INFO ("Connecting to laser at " +:+ host); Driver (Connect host port)].

(** From the log-in to [scanContinuous(true)]. *)
Definition configuring : list (Event F) :=
  [ Log DEBUG "Logging in to laser."; Driver Login;
    Driver GetScanConfig; Driver GetScanOutputRange;
    Log DEBUG "Laser configuration: scaningFrequency %d, activeSensors %d, angleResolution %d, startAngle %d, stopAngle %d";
  Log DEBUG "Laser output range: angleResolution %d, startAngle %d, stopAngle %d";
    Log INFO "Connected to laser.";
    Log DEBUG "Setting scan data configuration."; Driver (SetScanDataConfig data_cfg);
    Log DEBUG "Setting echo configuration"; Driver SetEchoFilterAllEchoes;
    Log DEBUG "Setting application mode"; Driver EnableRangingApplication;
    Driver SaveConfig;
    Log INFO "Starting device..."; Driver StartDevice;
    Driver StartMeasurement;
    Log INFO "...started. Starting continuous measurements";
    Driver (ScanContinuous true) ].

(** One connection that was opened, up to [laser.disconnect()]. *)
Definition session n (cfg : ScanConfig) (range : ScanOutputRange) (ticks : list (Tick F))
    : Node F * list (Event F) * Ended :=
  let '(st, ev, e) := stream (enter_streaming n cfg range) ticks in
  (node st, connecting ++ configuring ++ ev ++ [Driver Disconnect], e).

Definition refused : list (Event F) :=
  connecting ++ [Log WARN "Unable to connect, retrying."; Sleep 1].

(** [while (ros::ok())] of [main]. *)
Fixpoint run n (script : list (Attempt F)) : Node F * list (Event F) :=
  match script with
  | [] => (n, [])
  | Refused :: script' =>
      let '(n', ev) := run n script' in (n', refused ++ ev)
  | Connected cfg range ticks :: script' =>
      let '(n1, ev1, e) := session n cfg range ticks in
      match e with
      | Shutdown => (n1, ev1)
      | TimedOut => let '(n2, ev2) := run n1 script' in (n2, ev1 ++ ev2)
      end
  end.

(** *** Reading a trace *)

Definition clouds (tr : list (Event F)) : list (PointCloud2 F) :=
  omap (λ e, match e with PublishCloud c => Some c | _ => None end) tr.

Definition scans (tr : list (Event F)) : list (nat * LaserScan F) :=
  omap (λ e, match e with PublishScan k m => Some (k, m) | _ => None end) tr.

Definition multi_scans (tr : list (Event F)) : list (nat * MultiEchoLaserScan F) :=
  omap (λ e, match e with PublishMulti k m => Some (k, m) | _ => None end) tr.

(** The buffer writes: where, and which unit. *)
Definition fills (tr : list (Event F)) : list (Cursors * ScanData F) :=
  omap (λ e, match e with FillCloud it d => Some (it, d) | _ => None end) tr.

Definition sleeps (tr : list (Event F)) : list Z :=
  omap (λ e, match e with Sleep s => Some s | _ => None end) tr.

(** The units of a session: the successful reads before the first
    time-out. *)
Fixpoint units (ticks : list (Tick F)) : list (ScanData F) :=
  match ticks with
  | [] => []
  | t :: ticks' =>
      match read t with
      | Some d => d :: units ticks'
      | None => []
      end
  end.
End Mrs1000.


(** ** Vocabulary of the statements *)

Section Vocabulary.
Context {F : Type}.
Context (ids : CoLaALayers).

(** All four iterators at the same point of the buffer. *)
Definition cursors_at (c : nat) : Cursors :=
  {| iter_x := c; iter_y := c; iter_z := c; iter_int := c |}.

(** Every iterator moved forward by [k] points. *)
Definition advance_by (k : nat) (it : Cursors) : Cursors :=
  {| iter_x := iter_x it + k;
     iter_y := iter_y it + k;
     iter_z := iter_z it + k;
     iter_int := iter_int it + k |}.

Definition is_start (d : ScanData F) : bool := (layer_angle d =? Layer2 ids)%Z.
Definition is_end (d : ScanData F) : bool := (layer_angle d =? Layer4 ids)%Z.

(** The units of a session from its first start marker on. *)
Fixpoint from_start (us : list (ScanData F)) : list (ScanData F) :=
  match us with
  | [] => []
  | d :: us' => if is_start d then d :: us' else from_start us'
  end.

(** Where the units [us] are written, for a loop whose flag is [syn] and whose
    iterators stand at [off]. *)
Fixpoint placed (syn : bool) (off : nat) (us : list (ScanData F))
    : list (Cursors * ScanData F) :=
  match us with
  | [] => []
  | d :: us' =>
      if is_start d then
        (cursors_at 0, d) :: placed true (length (samples d)) us'
      else if syn then
        (cursors_at off, d) :: placed true (off + length (samples d)) us'
      else placed false off us'
  end.

(** The ticks that read the unit [d] at the times [nows]. *)
Definition tick (now0 : RosTime) (d : ScanData F) : Tick F :=
  {| now := now0; read := Some d |}.

Definition timeout (now0 : RosTime) : Tick F :=
  {| now := now0; read := None |}.
End Vocabulary.

(** ** Vocabulary of the session traces *)

Section Accounts.
Context {F : Type}.

(** The calls of the driver, in order. *)
Definition calls (tr : list (Event F)) : list Call :=
  omap (λ e, match e with Driver c => Some c | _ => None end) tr.

(** The calls of [ros::spinOnce()]. *)
Definition spins (tr : list (Event F)) : list unit :=
  omap (λ e, match e with SpinOnce => Some () | _ => None end) tr.

Definition is_connect (c : Call) : bool :=
  match c with Connect _ _ => true | _ => false end.
Definition is_login (c : Call) : bool :=
  match c with Login => true | _ => false end.
Definition is_disconnect (c : Call) : bool :=
  match c with Disconnect => true | _ => false end.

(** How often a kind of call occurs in a trace. *)
Definition count_calls (kind : Call → bool) (tr : list (Event F)) : nat :=
  length (filter (λ c, kind c) (calls tr)).

(** Whether a read of the loop fails. *)
Definition timed_out (ticks : list (Tick F)) : bool :=
  existsb (λ t, match read t with None => true | Some _ => false end) ticks.

(** The connections of a script that are opened: the refused attempts give
    none, and nothing follows a read loop that was left by [ros::ok()]. *)
Fixpoint sessions (script : list (Attempt F)) : list (list (Tick F)) :=
  match script with
  | [] => []
  | Refused :: script' => sessions script'
  | Connected _ _ ticks :: script' =>
      if timed_out ticks then ticks :: sessions script' else [ticks]
  end.

(** The attempts of a script that are made. *)
Fixpoint attempts (script : list (Attempt F)) : nat :=
  match script with
  | [] => 0
  | Refused :: script' => S (attempts script')
  | Connected _ _ ticks :: script' =>
      if timed_out ticks then S (attempts script') else 1
  end.

(** All the samples of a list of units, in order. *)
Definition all_samples (us : list (ScanData F)) : list (Point F) :=
  concat (samples <$> us).
End Accounts.

(** ** Concrete data for the examples *)

(** Four identifiers, as 16-bit values. *)
Definition example_layers : CoLaALayers :=
  {| Layer1 := 250; Layer2 := 0; Layer3 := 65286; Layer4 := 65036;
     layers_distinct := ltac:(apply (bool_decide_unpack _); exact I) |}.

Definition point_of (v : Q) : Point Q :=
  {| px := v; py := v; pz := v; pint := v |}.

(** A unit of [k] samples, all of value [v]. *)
Definition unit_of (layer : Z) (k : nat) (v : Q) : ScanData Q :=
  {| layer_angle := layer; samples := replicate k (point_of v) |}.

(** The messages as [main] sets them up: a cloud of 4 rows of [scan_count]
    points. *)
Definition initial_node (now0 : RosTime) : Node Q :=
  {| cloud := {| stamp := now0;
                 data := replicate (cloud_height * scan_count) (point_of 0%Q) |};
     multi_scan := {| multi_scan_time := 0%Q; multi_time_increment := 0%Q;
                      multi_data := None |};
     scan := {| scan_time := 0%Q; time_increment := 0%Q; scan_data := None |} |}.

(** A node with a cloud of [k] points, to keep examples small. *)
Definition small_node (k : nat) : Node Q :=
  {| cloud := {| stamp := 0%Z; data := replicate k (point_of 0%Q) |};
     multi_scan := {| multi_scan_time := 0%Q; multi_time_increment := 0%Q;
                      multi_data := None |};
     scan := {| scan_time := 0%Q; time_increment := 0%Q; scan_data := None |} |}.

Definition example_cfg : ScanConfig :=
  {| scan_frequency := 5000; num_sectors := 1; angualar_resolution := 2500;
     start_angle := -475000; stop_angle := 2275000 |}.

Definition example_range : ScanOutputRange :=
  {| angular_resolution := 2500;
     range_start_angle := -475000; range_stop_angle := 2275000 |}.

Definition L1 : Z := Layer1 example_layers.
Definition L2 : Z := Layer2 example_layers.
Definition L3 : Z := Layer3 example_layers.
Definition L4 : Z := Layer4 example_layers.

(** The trace of one session of the example node on the units [us], read at
    the times 1, 2, ... *)
Definition example_ticks (us : list (ScanData Q)) : list (Tick Q) :=
  zip_with tick (Z.of_nat <$> seq 1 (length us)) us.

Definition example_stream (k : nat) (us : list (ScanData Q))
    : Stream Q * list (Event Q) * Ended :=
  stream example_layers
    (enter_streaming (small_node k) example_cfg example_range)
    (example_ticks us).

(** A read loop under way: the flag is set and the iterators stand at
    point [c] of a cloud of [k] points. *)
Definition synced_stream (k c : nat) : Stream Q :=
  {| node := small_node k; iters := cursors_at c; synced := true |}.

(** An identifier that is none of the four. *)
Definition unknown_layer : Z := 7.

(** The defaults of the parameters [host] and [port]. *)
Definition default_host : string := "192.168.1.2".
Definition default_port : Z := 2111.

(** ** Properties *)

Example layer_index_examples :
  getLayerIndex example_layers <$> [L2; L3; L1; L4; 7]%Z = [0; 1; 2; 3; 0].
Proof. reflexivity. Qed.

Example timing_example :
  let st := enter_streaming (initial_node 0%Z) example_cfg example_range in
  scan_time (scan (node st)) = (1 # 50)%Q ∧
  time_increment (scan (node st)) = (5 # 144)%Q.
Proof. vm_compute. done. Qed.

Example full_cycle_example :
  let us := [unit_of L2 2 1; unit_of L3 2 2; unit_of L1 2 3; unit_of L4 2 4] in
  (λ c, (stamp c, data c)) <$> clouds (example_stream 8 us).1.2 =
    [(4%Z, point_of <$> [1; 1; 2; 2; 3; 3; 4; 4]%Q)] ∧
  length (scans (example_stream 8 us).1.2) = 4 ∧
  length (multi_scans (example_stream 8 us).1.2) = 4.
Proof. vm_compute. done. Qed.

Example reconnect_example :
  let script :=
    [ Refused;
      Connected example_cfg example_range
        [tick 1%Z (unit_of L2 1 1); timeout 2%Z; tick 3%Z (unit_of L4 1 4)];
      Refused;
      Connected example_cfg example_range
        [tick 30%Z (unit_of L4 1 4); tick 31%Z (unit_of L2 1 1);
         tick 32%Z (unit_of L4 1 4)];
      Refused ] in
  let tr := (run example_layers default_host default_port (small_node 4) script).2 in
  sleeps tr = [1; 10; 1]%Z ∧
  stamp <$> clouds tr = [32%Z] ∧
  fst <$> scans tr = [0; 3; 0; 3].
Proof. vm_compute. done. Qed.

(** *** The buffer and its iterators *)

Section Buffer.
Context {F : Type}.
Implicit Types (buf ss : list (Point F)) (s p : Point F) (it : Cursors).

Lemma advance_cursors_at c : advance (cursors_at c) = cursors_at (S c).
Proof. reflexivity. Qed.

Lemma advance_by_0 it : advance_by 0 it = it.
Proof. destruct it; unfold advance_by; simpl; f_equal; lia. Qed.

Lemma advance_by_S k it : advance_by k (advance it) = advance_by (S k) it.
Proof. destruct it; unfold advance_by, advance; simpl; f_equal; lia. Qed.

Lemma advance_by_cursors_at k c : advance_by k (cursors_at c) = cursors_at (c + k).
Proof. reflexivity. Qed.

Lemma length_write_point it buf s : length (write_point it buf s) = length buf.
Proof. unfold write_point. by rewrite !length_alter. Qed.

(** With the four iterators on one point, the point is replaced by the
    sample. *)
Lemma write_point_at c buf s :
  c < length buf → write_point (cursors_at c) buf s = <[c:=s]> buf.
Proof.
  intros Hc. destruct (lookup_lt_is_Some_2 buf c Hc) as [p Hp].
  apply list_eq. intros i. unfold write_point; simpl.
  destruct (decide (i = c)) as [->|Hne].
  - rewrite !list_lookup_alter_eq, Hp, list_lookup_insert_eq by done.
    simpl. by destruct s.
  - rewrite !list_lookup_alter_ne, list_lookup_insert_ne by done. done.
Qed.


(** The iterators move by the number of samples, wherever they stand. *)
Lemma fill_points_cursors ss it buf :
  (fill_points it buf ss).1 = advance_by (length ss) it.
Proof.
  revert it buf. induction ss as [|s ss IH]; intros it buf; simpl.
  - by rewrite advance_by_0.
  - by rewrite IH, advance_by_S.
Qed.

Lemma fill_points_length ss it buf :
  length (fill_points it buf ss).2 = length buf.
Proof.
  revert it buf. induction ss as [|s ss IH]; intros it buf; simpl; [done|].
  by rewrite IH, length_write_point.
Qed.

(** A unit that fits is copied into the buffer at the iterators. *)
Lemma fill_points_at ss c buf :
  c + length ss ≤ length buf →
  fill_points (cursors_at c) buf ss =
    (cursors_at (c + length ss), take c buf ++ ss ++ drop (c + length ss) buf).
Proof.
  revert c buf. induction ss as [|s ss IH]; intros c buf Hc; simpl in *.
  - rewrite Nat.add_0_r. by rewrite take_drop.
  - rewrite advance_cursors_at, write_point_at by lia.
    rewrite IH by (rewrite length_insert; lia).
    replace (S c + length ss) with (c + S (length ss)) by lia.
    f_equal. rewrite drop_insert_lt by lia.
    rewrite (take_S_r _ c s) by (apply list_lookup_insert_eq; lia).
    rewrite take_insert_ge by lia. by rewrite <-app_assoc.
Qed.
End Buffer.

(** *** Traces *)

Section Trace.
Context {F : Type}.
Implicit Types (tr : list (Event F)).

Lemma clouds_app tr1 tr2 : clouds (tr1 ++ tr2) = clouds tr1 ++ clouds tr2.
Proof. apply omap_app. Qed.

Lemma scans_app tr1 tr2 : scans (tr1 ++ tr2) = scans tr1 ++ scans tr2.
Proof. apply omap_app. Qed.

Lemma multi_scans_app tr1 tr2 :
  multi_scans (tr1 ++ tr2) = multi_scans tr1 ++ multi_scans tr2.
Proof. apply omap_app. Qed.

Lemma fills_app tr1 tr2 : fills (tr1 ++ tr2) = fills tr1 ++ fills tr2.
Proof. apply omap_app. Qed.

Lemma sleeps_app tr1 tr2 : sleeps (tr1 ++ tr2) = sleeps tr1 ++ sleeps tr2.
Proof. apply omap_app. Qed.
End Trace.

(** *** One unit *)

Section Unit.
Context {F : Type} `{!FloatOps F}.
Context (ids : CoLaALayers).
Implicit Types (d : ScanData F) (st : Stream F) (t : Tick F).

Lemma layers_ne :
  Layer2 ids ≠ Layer3 ids ∧ Layer2 ids ≠ Layer1 ids ∧ Layer2 ids ≠ Layer4 ids ∧
  Layer3 ids ≠ Layer1 ids ∧ Layer3 ids ≠ Layer4 ids ∧ Layer1 ids ≠ Layer4 ids.
Proof.
  pose proof (layers_distinct ids) as Hd.
  rewrite !NoDup_cons, !not_elem_of_cons in Hd. tauto.
Qed.

Lemma start_is_not_end d : is_start ids d = true → is_end ids d = false.
Proof.
  unfold is_start, is_end. intros Hs%Z.eqb_eq. apply Z.eqb_neq.
  rewrite Hs. apply layers_ne.
Qed.

(** The state and the events of [on_unit], by cases on the flag as it is
    tested. *)
Lemma on_unit_eq st d :
  let syn := is_start ids d || synced st in
  let its := if is_start ids d then start_iters else iters st in
  let filled := fill_points its (data (cloud (node st))) (samples d) in
  let cloud' :=
    {| stamp := stamp (cloud (node st));
       data := if syn then filled.2 else data (cloud (node st)) |} in
  on_unit ids st d =
    ({| node := {| cloud := cloud';
                   multi_scan := fillMultiEchoLaserScan (multi_scan (node st)) d;
                   scan := fillLaserScan (scan (node st)) d |};
        iters := if syn then filled.1 else its;
        synced := syn |},
     [ Log DEBUG "Publishing scan data";
       PublishScan (getLayerIndex ids (layer_angle d)) (fillLaserScan (scan (node st)) d);
       Log DEBUG "Publishing multi scan data.";
       PublishMulti (getLayerIndex ids (layer_angle d))
         (fillMultiEchoLaserScan (multi_scan (node st)) d) ]
     ++ if syn then
          FillCloud its d ::
          (if is_end ids d
           then [Log DEBUG "Publishing scan data."; PublishCloud cloud']
           else [])
          ++ [SpinOnce]
        else []).
Proof.
  destruct st as [[[stamp0 data0] ms sc] its0 syn0].
  unfold on_unit, route, sync, assemble, fillPointCloud2, is_start, is_end; simpl.
  destruct (layer_angle d =? Layer2 ids)%Z; simpl.
  - destruct (fill_points start_iters data0 (samples d)) as [it' buf'] eqn:Hf; simpl.
    by destruct (layer_angle d =? Layer4 ids)%Z.
  - destruct syn0; simpl; [|done].
    destruct (fill_points its0 data0 (samples d)) as [it' buf'] eqn:Hf; simpl.
    by destruct (layer_angle d =? Layer4 ids)%Z.
Qed.

Lemma on_unit_synced st d :
  synced (on_unit ids st d).1 = is_start ids d || synced st.
Proof. by rewrite on_unit_eq. Qed.

Lemma on_unit_scans st d :
  scans (on_unit ids st d).2 =
    [(getLayerIndex ids (layer_angle d), fillLaserScan (scan (node st)) d)].
Proof.
  rewrite on_unit_eq; simpl.
  destruct (is_start ids d || synced st); simpl; [|done].
  by destruct (is_end ids d).
Qed.

Lemma on_unit_multi_scans st d :
  multi_scans (on_unit ids st d).2 =
    [(getLayerIndex ids (layer_angle d),
      fillMultiEchoLaserScan (multi_scan (node st)) d)].
Proof.
  rewrite on_unit_eq; simpl.
  destruct (is_start ids d || synced st); simpl; [|done].
  by destruct (is_end ids d).
Qed.

Lemma on_unit_fills st d :
  fills (on_unit ids st d).2 =
    if is_start ids d || synced st
    then [(if is_start ids d then start_iters else iters st, d)]
    else [].
Proof.
  rewrite on_unit_eq; simpl.
  destruct (is_start ids d || synced st); simpl; [|done].
  by destruct (is_end ids d).
Qed.

Lemma on_unit_clouds st d :
  clouds (on_unit ids st d).2 =
    if (is_start ids d || synced st) && is_end ids d
    then [cloud (node (on_unit ids st d).1)]
    else [].
Proof.
  rewrite on_unit_eq; simpl.
  destruct (is_start ids d || synced st); simpl; [|done].
  by destruct (is_end ids d).
Qed.

Lemma on_unit_sleeps st d : sleeps (on_unit ids st d).2 = [].
Proof.
  rewrite on_unit_eq; simpl.
  destruct (is_start ids d || synced st); simpl; [|done].
  by destruct (is_end ids d).
Qed.

Lemma on_unit_iters st d :
  iters (on_unit ids st d).1 =
    if is_start ids d then cursors_at (length (samples d))
    else if synced st then advance_by (length (samples d)) (iters st)
    else iters st.
Proof.
  rewrite on_unit_eq; simpl.
  destruct (is_start ids d); simpl.
  - by rewrite fill_points_cursors.
  - destruct (synced st); [|done]. by rewrite fill_points_cursors.
Qed.

Lemma on_unit_stamp st d :
  stamp (cloud (node (on_unit ids st d).1)) = stamp (cloud (node st)).
Proof. by rewrite on_unit_eq. Qed.

Lemma on_unit_data st d :
  data (cloud (node (on_unit ids st d).1)) =
    if is_start ids d || synced st
    then (fill_points (if is_start ids d then start_iters else iters st)
            (data (cloud (node st))) (samples d)).2
    else data (cloud (node st)).
Proof. by rewrite on_unit_eq. Qed.

(** A successful read: the loop goes on. *)
Lemma iteration_tick st now0 d :
  iteration ids st (tick now0 d) =
    ((on_unit ids (stamp_cloud now0 st) d).1,
     [Log DEBUG "Reading scan data."; Driver GetScanData]
       ++ (on_unit ids (stamp_cloud now0 st) d).2,
     Next).
Proof.
  unfold iteration; simpl. by destruct (on_unit ids (stamp_cloud now0 st) d).
Qed.


Lemma stamp_cloud_data st now0 :
  data (cloud (node (stamp_cloud now0 st))) = data (cloud (node st)).
Proof. reflexivity. Qed.

Lemma tick_or_timeout t :
  (∃ d, t = tick (now t) d) ∨ t = timeout (now t).
Proof. destruct t as [n [d|]]; [left; by exists d | by right]. Qed.
End Unit.

(** *** The read loop *)

Section Loop.
Context {F : Type} `{!FloatOps F}.
Context (ids : CoLaALayers).
Implicit Types (d : ScanData F) (st : Stream F) (t : Tick F).
Implicit Types (ts : list (Tick F)) (us : list (ScanData F)).

Lemma stream_tick st now0 d ts :
  stream ids st (tick now0 d :: ts) =
    let st' := (on_unit ids (stamp_cloud now0 st) d).1 in
    ((stream ids st' ts).1.1,
     ([Log DEBUG "Reading scan data."; Driver GetScanData]
        ++ (on_unit ids (stamp_cloud now0 st) d).2)
       ++ (stream ids st' ts).1.2,
     (stream ids st' ts).2).
Proof.
  cbn [stream]. rewrite iteration_tick. cbv zeta.
  by destruct (stream ids _ ts) as [[st'' ev'] e].
Qed.

Lemma stream_timeout st now0 ts :
  stream ids st (timeout now0 :: ts) =
    (stamp_cloud now0 st,
     [ Log DEBUG "Reading scan data."; Driver GetScanData;
       Log ERROR "Laser timed out on delivering scan, attempting to reinitialize.";
       Sleep 10 ],
     TimedOut).
Proof. reflexivity. Qed.

(** Induction on the ticks of a loop, by what each one read. *)
Lemma ticks_ind (P : list (Tick F) → Prop) :
  P [] →
  (∀ now0 ts, P (timeout now0 :: ts)) →
  (∀ now0 d ts, P ts → P (tick now0 d :: ts)) →
  ∀ ts, P ts.
Proof.
  intros Hnil Hout Htick. induction ts as [|t ts IH]; [done|].
  destruct (tick_or_timeout t) as [[d ->]| ->]; auto.
Qed.

Lemma units_tick now0 d ts : units (tick now0 d :: ts) = d :: units ts.
Proof. reflexivity. Qed.

Lemma units_app_reads ts1 ts2 :
  Forall (λ t, is_Some (read t)) ts1 → units (ts1 ++ ts2) = units ts1 ++ units ts2.
Proof.
  induction 1 as [|t ts1 [d Hd] _ IH]; [done|]. simpl. by rewrite Hd, IH.
Qed.

(** The flag never goes back to false. *)
Lemma stream_synced ts st :
  synced st = true → synced (stream ids st ts).1.1 = true.
Proof.
  revert st. induction ts as [|now0 ts|now0 d ts IH] using ticks_ind; intros st Hs.
  - done.
  - by rewrite stream_timeout.
  - rewrite stream_tick. cbv zeta. cbn [fst snd]. apply IH.
    rewrite on_unit_synced. cbn [stamp_cloud synced]. rewrite Hs. apply orb_true_r.
Qed.

(** Which units are written, and where. *)
Lemma stream_fills ts st c :
  iters st = cursors_at c →
  fills (stream ids st ts).1.2 = placed ids (synced st) c (units ts).
Proof.
  revert st c. induction ts as [|now0 ts|now0 d ts IH] using ticks_ind; intros st c Hc.
  - done.
  - by rewrite stream_timeout.
  - rewrite stream_tick, units_tick. cbv zeta. cbn [fst snd].
    rewrite !fills_app, on_unit_fills. cbn [placed stamp_cloud synced iters app].
    change (fills [Log DEBUG _; Driver GetScanData]) with (@nil (Cursors * ScanData F)).
    cbn [app].
    destruct (is_start ids d) eqn:Hstart; cbn [orb app].
    + f_equal. rewrite (IH _ (length (samples d))).
      * by rewrite on_unit_synced, Hstart.
      * by rewrite on_unit_iters, Hstart.
    + destruct (synced st) eqn:Hsyn; cbn [app].
      * rewrite Hc. f_equal. rewrite (IH _ (c + length (samples d))).
        -- rewrite on_unit_synced, Hstart. cbn [stamp_cloud synced orb].
           by rewrite Hsyn.
        -- rewrite on_unit_iters, Hstart. cbn [stamp_cloud synced iters].
           by rewrite Hsyn, Hc.
      * rewrite (IH _ c).
        -- rewrite on_unit_synced, Hstart. cbn [stamp_cloud synced orb].
           by rewrite Hsyn.
        -- rewrite on_unit_iters, Hstart. cbn [stamp_cloud synced iters].
           by rewrite Hsyn.
Qed.

(** How many clouds a loop publishes. *)
Lemma stream_clouds_length ts st :
  length (clouds (stream ids st ts).1.2) =
    length (filter (λ d, is_end ids d)
              (if synced st then units ts else from_start ids (units ts))).
Proof.
  revert st. induction ts as [|now0 ts|now0 d ts IH] using ticks_ind; intros st.
  - by destruct (synced st).
  - rewrite stream_timeout. by destruct (synced st).
  - rewrite stream_tick, units_tick. cbv zeta. cbn [fst snd].
    rewrite !clouds_app, !length_app, on_unit_clouds, IH, on_unit_synced.
    change (clouds [Log DEBUG _; Driver GetScanData]) with (@nil (PointCloud2 F)).
    cbn [stamp_cloud synced length from_start Nat.add].
    destruct (is_start ids d) eqn:Hstart; cbn [orb andb].
    + rewrite (start_is_not_end _ _ Hstart).
      by destruct (synced st);
        rewrite filter_cons_False by (by apply Is_true_false_2, start_is_not_end).
    + destruct (synced st); cbn [andb length Nat.add]; [|done].
      destruct (is_end ids d) eqn:Hend.
      * by rewrite filter_cons_True by (by apply Is_true_true_2).
      * by rewrite filter_cons_False by (by apply Is_true_false_2).
Qed.

(** Every cloud carries the time of the iteration that published it. *)
Lemma stream_clouds_stamp ts st :
  Forall (λ c, ∃ now0 d, tick now0 d ∈ ts ∧ is_end ids d = true ∧ stamp c = now0)
    (clouds (stream ids st ts).1.2).
Proof.
  revert st. induction ts as [|now0 ts|now0 d ts IH] using ticks_ind; intros st.
  - constructor.
  - rewrite stream_timeout. constructor.
  - rewrite stream_tick. cbv zeta. cbn [fst snd].
    rewrite !clouds_app.
    change (clouds [Log DEBUG _; Driver GetScanData]) with (@nil (PointCloud2 F)).
    cbn [app]. apply Forall_app. split.
    + rewrite on_unit_clouds.
      destruct (_ && is_end ids d) eqn:Hpub; [|constructor].
      apply andb_true_iff in Hpub as [_ Hend].
      repeat constructor. exists now0, d. split; [left|].
      by rewrite on_unit_stamp.
    + eapply Forall_impl; [apply IH|]. simpl.
      intros c (now1 & d1 & Hin & Hend & Hst). exists now1, d1.
      split; [by right|done].
Qed.

Lemma stream_sleeps_reads ts st :
  Forall (λ t, is_Some (read t)) ts → sleeps (stream ids st ts).1.2 = [].
Proof.
  revert st. induction ts as [|now0 ts|now0 d ts IH] using ticks_ind;
    intros st Hr.
  - done.
  - apply Forall_cons in Hr as [[? Hd] _]. done.
  - apply Forall_cons in Hr as [_ Hr].
    rewrite stream_tick. cbv zeta. cbn [fst snd].
    rewrite !sleeps_app, on_unit_sleeps, IH by done. done.
Qed.

(** A loop that meets a time-out ends there. *)
Lemma stream_timed_out ts st now0 rest :
  Forall (λ t, is_Some (read t)) ts →
  stream ids st (ts ++ timeout now0 :: rest) =
    (stamp_cloud now0 (stream ids st ts).1.1,
     (stream ids st ts).1.2 ++
       [ Log DEBUG "Reading scan data."; Driver GetScanData;
         Log ERROR "Laser timed out on delivering scan, attempting to reinitialize.";
         Sleep 10 ],
     TimedOut).
Proof.
  revert st. induction ts as [|now1 ts|now1 d ts IH] using ticks_ind;
    intros st Hr.
  - reflexivity.
  - apply Forall_cons in Hr as [[? Hd] _]. done.
  - apply Forall_cons in Hr as [_ Hr]. cbn [app].
    rewrite !stream_tick. cbv zeta. rewrite IH by done. cbn [fst snd].
    by rewrite <-!app_assoc.
Qed.
End Loop.

(** *** Units written in a session *)

Section Written.
Context {F : Type}.
Context (ids : CoLaALayers).
Implicit Types (d : ScanData F) (us : list (ScanData F)).



Lemma from_start_suffix us : from_start ids us `suffix_of` us.
Proof.
  induction us as [|d us IH]; [done|]. cbn [from_start].
  destruct (is_start ids d); [done|]. by apply suffix_cons_r.
Qed.

(** A start marker and what follows it are kept. *)
Lemma from_start_app pre d post :
  is_start ids d = true →
  (d :: post) `suffix_of` from_start ids (pre ++ d :: post).
Proof.
  intros Hd. induction pre as [|d' pre IH]; cbn [app from_start].
  - by rewrite Hd.
  - destruct (is_start ids d'); [|done].
    apply suffix_cons_r. by apply suffix_app_r.
Qed.

(** Without a start marker nothing is kept; with one, the units from the
    first of them on. *)
Lemma from_start_cases us :
  (from_start ids us = [] ∧ Forall (λ d, is_start ids d = false) us) ∨
  (∃ pre s rest, us = pre ++ s :: rest ∧ is_start ids s = true ∧
     Forall (λ d, is_start ids d = false) pre ∧ from_start ids us = s :: rest).
Proof.
  induction us as [|d us IH]; [left; by split|]. cbn [from_start].
  destruct (is_start ids d) eqn:Hd.
  - right. exists [], d, us. by repeat split.
  - destruct IH as [[Hn Hall]|(pre & s & rest & -> & Hs & Hpre & Hfrom)].
    + left. split; [done|]. by constructor.
    + right. exists (d :: pre), s, rest. repeat split; try done. by constructor.
Qed.
End Written.

(** ** The layer router *)

Section Router.
Context {F : Type} `{!FloatOps F}.
Context (ids : CoLaALayers).
Implicit Types (d : ScanData F) (st : Stream F).

Lemma getLayerIndex_lt layer : getLayerIndex ids layer < 4.
Proof. unfold getLayerIndex. repeat case_match; lia. Qed.

(** [layer_pubs.at(...)] and [layer_multi_pubs.at(...)] never throw. *)
Lemma layer_pubs_at layer :
  is_Some (layer_pubs !! getLayerIndex ids layer) ∧
  is_Some (layer_multi_pubs !! getLayerIndex ids layer).
Proof.
  split; apply lookup_lt_is_Some_2; apply getLayerIndex_lt.
Qed.

Lemma getLayerIndex_known :
  getLayerIndex ids (Layer2 ids) = 0 ∧ getLayerIndex ids (Layer3 ids) = 1 ∧
  getLayerIndex ids (Layer1 ids) = 2 ∧ getLayerIndex ids (Layer4 ids) = 3.
Proof.
  destruct (layers_ne ids) as (H23 & H21 & H24 & H31 & H34 & H14).
  unfold getLayerIndex. split_and!.
  - by rewrite Z.eqb_refl.
  - rewrite (proj2 (Z.eqb_neq (Layer3 ids) (Layer2 ids))) by done.
    by rewrite Z.eqb_refl.
  - rewrite (proj2 (Z.eqb_neq (Layer1 ids) (Layer2 ids))) by done.
    rewrite (proj2 (Z.eqb_neq (Layer1 ids) (Layer3 ids))) by done.
    by rewrite Z.eqb_refl.
  - rewrite (proj2 (Z.eqb_neq (Layer4 ids) (Layer2 ids))) by done.
    rewrite (proj2 (Z.eqb_neq (Layer4 ids) (Layer3 ids))) by done.
    rewrite (proj2 (Z.eqb_neq (Layer4 ids) (Layer1 ids))) by done.
    by rewrite Z.eqb_refl.
Qed.

Lemma getLayerIndex_unknown layer :
  layer ∉ [Layer2 ids; Layer3 ids; Layer1 ids; Layer4 ids] →
  getLayerIndex ids layer = 0.
Proof.
  rewrite !not_elem_of_cons. intros (N2 & N3 & N1 & N4 & _).
  unfold getLayerIndex.
  by rewrite !(proj2 (Z.eqb_neq layer _)) by done.
Qed.

(** C4: [getLayerIndex] sends Layer2, Layer3, Layer1 and Layer4 to the slots
    0, 1, 2 and 3, which are pairwise different, and every other identifier
    to slot 0. *)
Theorem getLayerIndex_slots (layer : Z) :
  getLayerIndex ids (Layer2 ids) = 0 ∧
  getLayerIndex ids (Layer3 ids) = 1 ∧
  getLayerIndex ids (Layer1 ids) = 2 ∧
  getLayerIndex ids (Layer4 ids) = 3 ∧
  NoDup (getLayerIndex ids <$> [Layer2 ids; Layer3 ids; Layer1 ids; Layer4 ids]) ∧
  (layer ∉ [Layer2 ids; Layer3 ids; Layer1 ids; Layer4 ids] →
   getLayerIndex ids layer = 0).
Proof.
  destruct getLayerIndex_known as (E2 & E3 & E1 & E4).
  split_and!; try done.
  - cbn [fmap list_fmap]. rewrite E2, E3, E1, E4.
    rewrite !NoDup_cons, !not_elem_of_cons.
    split_and!; try lia; try apply not_elem_of_nil. apply NoDup_nil_2.
  - apply getLayerIndex_unknown.
Qed.

(** C3: a unit that was read is published as a 2D scan and as a multi-return
    scan through the publisher at [getLayerIndex] of its layer, whatever the
    flag; the cloud buffer is written exactly when the flag is true at the
    test, and with a false flag the buffer, the iterators and the cloud
    channel are left alone. *)
Theorem routing_unconditional st (now0 : RosTime) d :
  let r := iteration ids st (tick now0 d) in
  scans r.1.2 =
    [(getLayerIndex ids (layer_angle d), fillLaserScan (scan (node st)) d)] ∧
  multi_scans r.1.2 =
    [(getLayerIndex ids (layer_angle d),
      fillMultiEchoLaserScan (multi_scan (node st)) d)] ∧
  is_Some (layer_pubs !! getLayerIndex ids (layer_angle d)) ∧
  is_Some (layer_multi_pubs !! getLayerIndex ids (layer_angle d)) ∧
  synced r.1.1 = is_start ids d || synced st ∧
  (fills r.1.2).*2 = (if synced r.1.1 then [d] else []) ∧
  (synced r.1.1 = false →
   fills r.1.2 = [] ∧ clouds r.1.2 = [] ∧
   data (cloud (node r.1.1)) = data (cloud (node st)) ∧
   iters r.1.1 = iters st).
Proof.
  cbv zeta. rewrite iteration_tick. cbn [fst snd].
  rewrite scans_app, multi_scans_app, fills_app, clouds_app.
  rewrite on_unit_scans, on_unit_multi_scans, on_unit_fills, on_unit_clouds,
    on_unit_synced, on_unit_data, on_unit_iters.
  cbn [stamp_cloud node cloud scan multi_scan synced iters data].
  split_and!; try done; try apply layer_pubs_at.
  - by destruct (is_start ids d || synced st).
  - intros [Hstart Hsyn]%orb_false_iff. by rewrite Hstart, Hsyn.
Qed.
End Router.

(** ** The synchroniser *)

Section Synchroniser.
Context {F : Type} `{!FloatOps F}.
Context (ids : CoLaALayers).
Implicit Types (d : ScanData F) (st : Stream F) (t : Tick F) (n : Node F).
Implicit Types (ts : list (Tick F)) (us : list (ScanData F)).

Lemma on_unit_length st d :
  length (data (cloud (node (on_unit ids st d).1))) = length (data (cloud (node st))).
Proof.
  rewrite on_unit_data. destruct (is_start ids d || synced st); [|done].
  apply fill_points_length.
Qed.

(** A start marker that fits begins the buffer anew. *)
Lemma on_unit_start_cycle st d :
  is_start ids d = true →
  length (samples d) ≤ length (data (cloud (node st))) →
  let st' := (on_unit ids st d).1 in
  iters st' = cursors_at (length (samples d)) ∧ synced st' = true ∧
  take (length (samples d)) (data (cloud (node st'))) = samples d.
Proof.
  intros Hs Hlen. cbv zeta.
  rewrite on_unit_iters, on_unit_synced, on_unit_data, Hs. cbn [orb].
  split_and!; try done.
  change start_iters with (cursors_at 0).
  rewrite fill_points_at by done. cbn [snd Nat.add]. rewrite take_0.
  apply (take_app_length (samples d)).
Qed.

(** A further unit that fits is appended to what the cycle has written. *)
Lemma on_unit_append st d k :
  iters st = cursors_at k → synced st = true → is_start ids d = false →
  k + length (samples d) ≤ length (data (cloud (node st))) →
  let st' := (on_unit ids st d).1 in
  iters st' = cursors_at (k + length (samples d)) ∧ synced st' = true ∧
  take (k + length (samples d)) (data (cloud (node st'))) =
    take k (data (cloud (node st))) ++ samples d.
Proof.
  intros Hk Hsyn Hs Hlen. cbv zeta.
  rewrite on_unit_iters, on_unit_synced, on_unit_data, Hs, Hsyn, Hk. cbn [orb].
  split_and!; try done.
  rewrite fill_points_at by done. cbn [snd].
  rewrite app_assoc, take_app_length'; [done|].
  rewrite length_app, length_take. lia.
Qed.




End Synchroniser.

(** ** The cloud assembler *)

Section Assembler.
Context {F : Type} `{!FloatOps F}.
Context (ids : CoLaALayers).
Implicit Types (d : ScanData F) (st : Stream F) (t : Tick F) (n : Node F).
Implicit Types (ts : list (Tick F)) (us : list (ScanData F)).

(** What the two tests of the loop answer for each of the four layers. *)
Lemma layer_flags d :
  (layer_angle d = Layer2 ids → is_start ids d = true ∧ is_end ids d = false) ∧
  (layer_angle d = Layer3 ids → is_start ids d = false ∧ is_end ids d = false) ∧
  (layer_angle d = Layer1 ids → is_start ids d = false ∧ is_end ids d = false) ∧
  (layer_angle d = Layer4 ids → is_start ids d = false ∧ is_end ids d = true).
Proof.
  destruct (layers_ne ids) as (H23 & H21 & H24 & H31 & H34 & H14).
  unfold is_start, is_end.
  split_and!; intros ->; rewrite ?Z.eqb_refl; split; try done;
    apply Z.eqb_neq; congruence.
Qed.

(** C1, as the code has it: a session publishes one cloud for every unit of
    Layer4 read after its first unit of Layer2; it publishes a cloud if and
    only if a unit of Layer2 was read and later a unit of Layer4, whatever
    was read in between, and none if no unit of Layer2 was read. *)
Theorem cloud_published_iff n (cfg : ScanConfig) (range : ScanOutputRange) ts :
  let tr := (stream ids (enter_streaming n cfg range) ts).1.2 in
  length (clouds tr) =
    length (filter (λ d, is_end ids d) (from_start ids (units ts))) ∧
  (clouds tr ≠ [] ↔
   ∃ pre s mid e post,
     units ts = pre ++ s :: mid ++ e :: post ∧
     layer_angle s = Layer2 ids ∧ layer_angle e = Layer4 ids) ∧
  (Forall (λ d, layer_angle d ≠ Layer2 ids) (units ts) → clouds tr = []).
Proof.
  cbv zeta.
  pose proof (stream_clouds_length ids ts (enter_streaming n cfg range)) as Hlen.
  cbn [enter_streaming synced] in Hlen.
  split_and!; [done| |].
  - split.
    + intros Hne.
      destruct (from_start_cases ids (units ts))
        as [[Hnil _]|(pre & s & rest & Hus & Hs & _ & Hfrom)].
      { rewrite Hnil in Hlen. by apply nil_length_inv in Hlen. }
      rewrite Hfrom in Hlen.
      destruct (filter (λ d, is_end ids d) (s :: rest)) as [|e l] eqn:Hf.
      { by apply nil_length_inv in Hlen. }
      assert (e ∈ filter (λ d, is_end ids d) (s :: rest)) as He
        by (rewrite Hf; left).
      apply list_elem_of_filter in He as [He Hin].
      apply Is_true_true_1 in He.
      apply elem_of_cons in Hin as [->|Hin].
      { rewrite (start_is_not_end _ _ Hs) in He. done. }
      apply list_elem_of_split in Hin as (mid & post & ->).
      exists pre, s, mid, e, post.
      split_and!; [done|by apply Z.eqb_eq|by apply Z.eqb_eq].
    + intros (pre & s & mid & e & post & Hus & Hs & He) Hnil.
      rewrite Hnil, Hus in Hlen. symmetry in Hlen. apply nil_length_inv in Hlen.
      assert (e ∈ filter (λ d, is_end ids d)
                (from_start ids (pre ++ s :: mid ++ e :: post))) as Hin.
      { apply list_elem_of_filter. split.
        - apply Is_true_true_2. by apply Z.eqb_eq.
        - destruct (from_start_app ids pre s (mid ++ e :: post)) as [k ->].
          { by apply Z.eqb_eq. }
          apply elem_of_app. right. right. apply elem_of_app. right. left. }
      rewrite Hlen in Hin. by apply not_elem_of_nil in Hin.
  - intros Hno.
    destruct (from_start_cases ids (units ts))
      as [[Hnil _]|(pre & s & rest & Hus & Hs & _ & _)].
    + rewrite Hnil in Hlen. by apply nil_length_inv in Hlen.
    + rewrite Hus in Hno. apply Forall_app in Hno as [_ Hno].
      apply Forall_cons in Hno as [Hno _]. by apply Z.eqb_eq in Hs.
Qed.

(** C8, as the code has it: every cloud is stamped with the time taken at the
    start of the iteration that publishes it, which is the one that reads the
    unit of Layer4. *)
Theorem cloud_stamp st (now0 : RosTime) d ts :
  Forall (λ c, stamp c = now0) (clouds (iteration ids st (tick now0 d)).1.2) ∧
  Forall (λ c, ∃ now1 e,
            tick now1 e ∈ ts ∧ layer_angle e = Layer4 ids ∧ stamp c = now1)
    (clouds (stream ids st ts).1.2).
Proof.
  split.
  - rewrite iteration_tick. cbn [fst snd]. rewrite clouds_app, on_unit_clouds.
    destruct (_ && is_end ids d); repeat constructor.
    by rewrite on_unit_stamp.
  - eapply Forall_impl; [apply stream_clouds_stamp|].
    intros c (now1 & e & Hin & He & Hst). exists now1, e.
    split_and!; [done| |done]. by apply Z.eqb_eq.
Qed.
(** C2: a unit of Layer2 puts the four iterators back at the start of the
    buffer and sets the flag, whatever the state; nothing is published of what
    was written before.  On start, L3, start, L3, L1, end exactly one cloud is
    published, and where the units of the second cycle were written it holds
    their samples. *)
Theorem new_start_discards st (now1 now2 now3 now4 now5 now6 : RosTime)
    (s1 a s2 b c e : ScanData F) :
  layer_angle s1 = Layer2 ids → layer_angle a = Layer3 ids →
  layer_angle s2 = Layer2 ids → layer_angle b = Layer3 ids →
  layer_angle c = Layer1 ids → layer_angle e = Layer4 ids →
  let r1 := iteration ids st (tick now1 s1) in
  let r := stream ids st [tick now1 s1; tick now2 a; tick now3 s2;
                          tick now4 b; tick now5 c; tick now6 e] in
  let k2 := length (samples s2) in
  let kb := length (samples b) in
  let kc := length (samples c) in
  let ke := length (samples e) in
  iters (sync ids st s1) = cursors_at 0 ∧
  synced (sync ids st s1) = true ∧
  fills r1.1.2 = [(cursors_at 0, s1)] ∧
  clouds r1.1.2 = [] ∧
  synced r1.1.1 = true ∧
  fills r.1.2 =
    [ (cursors_at 0, s1); (cursors_at (length (samples s1)), a);
      (cursors_at 0, s2); (cursors_at k2, b); (cursors_at (k2 + kb), c);
      (cursors_at (k2 + kb + kc), e) ] ∧
  ∃ cl,
    clouds r.1.2 = [cl] ∧
    (k2 + kb + kc + ke ≤ length (data (cloud (node st))) →
     take (k2 + kb + kc + ke) (data cl) =
       samples s2 ++ samples b ++ samples c ++ samples e).
Proof.
  intros H1 Ha H2 Hb Hc He. cbv zeta.
  destruct (proj1 (layer_flags s1) H1) as [S1 E1].
  destruct (proj1 (proj2 (layer_flags a)) Ha) as [Sa Ea].
  destruct (proj1 (layer_flags s2) H2) as [S2 E2].
  destruct (proj1 (proj2 (layer_flags b)) Hb) as [Sb Eb].
  destruct (proj1 (proj2 (proj2 (layer_flags c))) Hc) as [Sc Ec].
  destruct (proj2 (proj2 (proj2 (layer_flags e))) He) as [Se Ee].
  rewrite iteration_tick. repeat (rewrite stream_tick; cbv zeta).
  cbn [stream fst snd]. rewrite app_nil_r.
  set (st1 := (on_unit ids (stamp_cloud now1 st) s1).1).
  set (st2 := (on_unit ids (stamp_cloud now2 st1) a).1).
  set (st3 := (on_unit ids (stamp_cloud now3 st2) s2).1).
  set (st4 := (on_unit ids (stamp_cloud now4 st3) b).1).
  set (st5 := (on_unit ids (stamp_cloud now5 st4) c).1).
  set (st6 := (on_unit ids (stamp_cloud now6 st5) e).1).
  assert (length (data (cloud (node st2))) = length (data (cloud (node st)))) as L2.
  { unfold st2, st1.
    by rewrite on_unit_length, stamp_cloud_data, on_unit_length. }
  assert (iters st1 = cursors_at (length (samples s1)) ∧ synced st1 = true)
    as [I1 Y1].
  { unfold st1. by rewrite on_unit_iters, on_unit_synced, S1. }
  assert (iters st2 = cursors_at (length (samples s1) + length (samples a))
          ∧ synced st2 = true) as [I2 Y2].
  { unfold st2. rewrite on_unit_iters, on_unit_synced, Sa.
    cbn [stamp_cloud synced iters orb]. by rewrite Y1, I1. }
  assert (iters st3 = cursors_at (length (samples s2)) ∧ synced st3 = true)
    as [I3 Y3].
  { unfold st3. by rewrite on_unit_iters, on_unit_synced, S2. }
  assert (iters st4 = cursors_at (length (samples s2) + length (samples b))
          ∧ synced st4 = true) as [I4 Y4].
  { unfold st4. rewrite on_unit_iters, on_unit_synced, Sb.
    cbn [stamp_cloud synced iters orb]. by rewrite Y3, I3. }
  assert (iters st5 =
            cursors_at (length (samples s2) + length (samples b) + length (samples c))
          ∧ synced st5 = true) as [I5 Y5].
  { unfold st5. rewrite on_unit_iters, on_unit_synced, Sc.
    cbn [stamp_cloud synced iters orb]. by rewrite Y4, I4. }
  split_and!.
  - unfold sync. fold (is_start ids s1). by rewrite S1.
  - unfold sync. fold (is_start ids s1). by rewrite S1.
  - rewrite fills_app, on_unit_fills, S1. done.
  - rewrite clouds_app, on_unit_clouds, S1, E1. done.
  - done.
  - rewrite !fills_app, !on_unit_fills.
    cbn [stamp_cloud synced iters].
    rewrite S1, Sa, S2, Sb, Sc, Se, Y1, Y3, Y4, Y5, I1, I3, I4, I5. done.
  - exists (cloud (node st6)). split.
    + rewrite !clouds_app, !on_unit_clouds.
      cbn [stamp_cloud synced].
      rewrite E1, Ea, E2, Eb, Ec, Ee, Se, Y5, !andb_false_r. done.
    + intros Hfit.
      destruct (on_unit_start_cycle ids (stamp_cloud now3 st2) s2 S2)
        as (_ & _ & T3).
      { rewrite stamp_cloud_data. lia. }
      fold st3 in T3.
      destruct (on_unit_append ids (stamp_cloud now4 st3) b _ I3 Y3 Sb)
        as (_ & _ & T4).
      { unfold st3. rewrite stamp_cloud_data, on_unit_length, stamp_cloud_data.
        lia. }
      fold st4 in T4. cbn [stamp_cloud node cloud data] in T4.
      destruct (on_unit_append ids (stamp_cloud now5 st4) c _ I4 Y4 Sc)
        as (_ & _ & T5).
      { unfold st4, st3.
        repeat (rewrite stamp_cloud_data || rewrite on_unit_length). lia. }
      fold st5 in T5. cbn [stamp_cloud node cloud data] in T5.
      destruct (on_unit_append ids (stamp_cloud now6 st5) e _ I5 Y5 Se)
        as (_ & _ & T6).
      { unfold st5, st4, st3.
        repeat (rewrite stamp_cloud_data || rewrite on_unit_length). lia. }
      fold st6 in T6. cbn [stamp_cloud node cloud data] in T6.
      rewrite T6, T5, T4, T3. by rewrite <-!app_assoc.
Qed.
(** C5, as the code has it: a unit is written where the iterators stand,
    that is after the samples written since the latest unit of Layer2, which
    itself is written at the start of the buffer.  When the layers of a cycle
    arrive in the order Layer2, Layer3, Layer1, Layer4, each with [scan_count]
    samples, the unit of slot [k] occupies the points from [k * scan_count]
    to [(k + 1) * scan_count], and the cloud published is the four units in
    the order of their slots. *)
Theorem written_at_cursor n (cfg : ScanConfig) (range : ScanOutputRange) ts
    st (now0 now1 now2 now3 : RosTime) (d0 d1 d2 d3 : ScanData F) :
  fills (stream ids (enter_streaming n cfg range) ts).1.2 =
    placed ids false 0 (units ts) ∧
  (layer_angle d0 = Layer2 ids → layer_angle d1 = Layer3 ids →
   layer_angle d2 = Layer1 ids → layer_angle d3 = Layer4 ids →
   Forall (λ d, length (samples d) = scan_count) [d0; d1; d2; d3] →
   let r := stream ids st [tick now0 d0; tick now1 d1; tick now2 d2; tick now3 d3] in
   fills r.1.2 =
     (λ d, (cursors_at (getLayerIndex ids (layer_angle d) * scan_count), d))
       <$> [d0; d1; d2; d3] ∧
   (length (data (cloud (node st))) = cloud_height * scan_count →
    data <$> clouds r.1.2 =
      [samples d0 ++ samples d1 ++ samples d2 ++ samples d3])).
Proof.
  split; [by apply stream_fills|].
  intros H0 H1 H2 H3 Hlen. cbv zeta.
  apply Forall_cons in Hlen as [K0 Hlen]. apply Forall_cons in Hlen as [K1 Hlen].
  apply Forall_cons in Hlen as [K2 Hlen]. apply Forall_cons in Hlen as [K3 _].
  destruct (proj1 (layer_flags d0) H0) as [S0 E0].
  destruct (proj1 (proj2 (layer_flags d1)) H1) as [S1 E1].
  destruct (proj1 (proj2 (proj2 (layer_flags d2))) H2) as [S2 E2].
  destruct (proj2 (proj2 (proj2 (layer_flags d3))) H3) as [S3 E3].
  destruct (getLayerIndex_known ids) as (G2 & G3 & G1 & G4).
  repeat (rewrite stream_tick; cbv zeta).
  cbn [stream fst snd]. rewrite app_nil_r.
  set (st1 := (on_unit ids (stamp_cloud now0 st) d0).1).
  set (st2 := (on_unit ids (stamp_cloud now1 st1) d1).1).
  set (st3 := (on_unit ids (stamp_cloud now2 st2) d2).1).
  set (st4 := (on_unit ids (stamp_cloud now3 st3) d3).1).
  assert (iters st1 = cursors_at scan_count ∧ synced st1 = true) as [I1 Y1].
  { unfold st1. by rewrite on_unit_iters, on_unit_synced, S0, K0. }
  assert (iters st2 = cursors_at (scan_count + scan_count) ∧ synced st2 = true)
    as [I2 Y2].
  { unfold st2. rewrite on_unit_iters, on_unit_synced, S1, K1.
    cbn [stamp_cloud synced iters orb]. by rewrite Y1, I1. }
  assert (iters st3 = cursors_at (scan_count + scan_count + scan_count)
          ∧ synced st3 = true) as [I3 Y3].
  { unfold st3. rewrite on_unit_iters, on_unit_synced, S2, K2.
    cbn [stamp_cloud synced iters orb]. by rewrite Y2, I2. }
  split.
  - rewrite !fills_app, !on_unit_fills.
    cbn [stamp_cloud synced iters fmap list_fmap].
    rewrite H0, H1, H2, H3, G2, G3, G1, G4.
    rewrite S0, S1, S2, S3, Y1, Y2, Y3, I1, I2, I3.
    cbn [orb app fills omap list_omap]. repeat f_equal; lia.
  - intros Hbuf.
    rewrite !clouds_app, !on_unit_clouds.
    cbn [stamp_cloud synced].
    rewrite E0, E1, E2, E3, S3, Y3, !andb_false_r.
    cbn [orb andb app clouds omap list_omap fmap list_fmap]. f_equal.
    destruct (on_unit_start_cycle ids (stamp_cloud now0 st) d0 S0)
      as (_ & _ & T1).
    { rewrite stamp_cloud_data, Hbuf, K0. unfold cloud_height. lia. }
    fold st1 in T1. rewrite K0 in T1.
    destruct (on_unit_append ids (stamp_cloud now1 st1) d1 _ I1 Y1 S1)
      as (_ & _ & T2).
    { unfold st1. repeat (rewrite stamp_cloud_data || rewrite on_unit_length).
      rewrite Hbuf, K1. unfold cloud_height. lia. }
    fold st2 in T2. rewrite stamp_cloud_data, K1 in T2.
    destruct (on_unit_append ids (stamp_cloud now2 st2) d2 _ I2 Y2 S2)
      as (_ & _ & T3).
    { unfold st2, st1. repeat (rewrite stamp_cloud_data || rewrite on_unit_length).
      rewrite Hbuf, K2. unfold cloud_height. lia. }
    fold st3 in T3. rewrite stamp_cloud_data, K2 in T3.
    destruct (on_unit_append ids (stamp_cloud now3 st3) d3 _ I3 Y3 S3)
      as (_ & _ & T4).
    { unfold st3, st2, st1.
      repeat (rewrite stamp_cloud_data || rewrite on_unit_length).
      rewrite Hbuf, K3. unfold cloud_height. lia. }
    fold st4 in T4. rewrite stamp_cloud_data, K3 in T4.
    rewrite take_ge in T4.
    + fold st4. rewrite T4, T3, T2, T1. by rewrite <-!app_assoc.
    + unfold st4, st3, st2, st1.
      repeat (rewrite stamp_cloud_data || rewrite on_unit_length).
      rewrite Hbuf. unfold cloud_height. lia.
Qed.
End Assembler.

(** ** The session *)

Section Session.
Context {F : Type} `{!FloatOps F}.
Context (ids : CoLaALayers) (host : string) (port : Z).
Implicit Types (st : Stream F) (n : Node F) (ts : list (Tick F)).
Implicit Types (script : list (Attempt F)).

Lemma session_eq n (cfg : ScanConfig) (range : ScanOutputRange) ts :
  session ids host port n cfg range ts =
    let r := stream ids (enter_streaming n cfg range) ts in
    (node r.1.1,
     connecting host port ++ configuring ++ r.1.2 ++ [Driver Disconnect],
     r.2).
Proof.
  unfold session. by destruct (stream ids _ ts) as [[st ev] e].
Qed.

Lemma run_refused n script :
  run ids host port n (Refused :: script) =
    ((run ids host port n script).1,
     refused host port ++ (run ids host port n script).2).
Proof. cbn [run]. by destruct (run ids host port n script). Qed.

Lemma run_timed_out n (cfg : ScanConfig) (range : ScanOutputRange) ts script :
  (session ids host port n cfg range ts).2 = TimedOut →
  run ids host port n (Connected cfg range ts :: script) =
    let s := session ids host port n cfg range ts in
    ((run ids host port s.1.1 script).1,
     s.1.2 ++ (run ids host port s.1.1 script).2).
Proof.
  cbn [run]. destruct (session ids host port n cfg range ts) as [[n1 ev1] e].
  cbn [fst snd]. intros ->. by destruct (run ids host port n1 script).
Qed.

(** However often the connection is refused, the loop tries again. *)
Lemma run_refused_again k n script :
  run ids host port n (replicate k Refused ++ script) =
    ((run ids host port n script).1,
     concat (replicate k (refused host port)) ++ (run ids host port n script).2).
Proof.
  induction k as [|k IH]; cbn [replicate app concat].
  - by destruct (run ids host port n script).
  - rewrite run_refused, IH. cbn [fst snd]. by rewrite <-app_assoc.
Qed.

(** C6: a read that fails is logged as an error, the node sleeps for 10, the
    transport is closed and the outer loop goes on with the next attempt; a
    connection that is refused makes the node sleep for 1 and try again,
    however often; and 1 is less than 10. *)
Theorem timeout_and_retry n (cfg : ScanConfig) (range : ScanOutputRange)
    (pre rest : list (Tick F)) (now0 : RosTime) script (k : nat) :
  Forall (λ t, is_Some (read t)) pre →
  let s := session ids host port n cfg range (pre ++ timeout now0 :: rest) in
  (∃ ev,
     s.1.2 = ev ++
       [ Log ERROR "Laser timed out on delivering scan, attempting to reinitialize.";
         Sleep 10; Driver Disconnect ] ∧
     sleeps ev = []) ∧
  s.2 = TimedOut ∧
  run ids host port n (Connected cfg range (pre ++ timeout now0 :: rest) :: script) =
    ((run ids host port s.1.1 script).1,
     s.1.2 ++ (run ids host port s.1.1 script).2) ∧
  refused (F:=F) host port =
    [ Log INFO ("Connecting to laser at " +:+ host); Driver (Connect host port);
      Log WARN "Unable to connect, retrying."; Sleep 1 ] ∧
  run ids host port n (replicate k Refused ++ script) =
    ((run ids host port n script).1,
     concat (replicate k (refused host port)) ++ (run ids host port n script).2) ∧
  Forall2 Z.lt (sleeps (refused (F:=F) host port)) (sleeps s.1.2).
Proof.
  intros Hpre. cbv zeta.
  assert ((session ids host port n cfg range (pre ++ timeout now0 :: rest)).2
          = TimedOut) as Hend.
  { rewrite session_eq. cbv zeta. cbn [snd]. by rewrite stream_timed_out. }
  split_and!.
  - rewrite session_eq. cbv zeta. cbn [fst snd]. rewrite stream_timed_out by done.
    cbn [fst snd].
    exists (connecting host port ++ configuring
              ++ (stream ids (enter_streaming n cfg range) pre).1.2
              ++ [Log DEBUG "Reading scan data."; Driver GetScanData]).
    split.
    + by rewrite <-!app_assoc.
    + rewrite !sleeps_app, stream_sleeps_reads by done. done.
  - done.
  - by apply run_timed_out.
  - done.
  - apply run_refused_again.
  - rewrite session_eq. cbv zeta. cbn [fst snd]. rewrite stream_timed_out by done.
    cbn [fst snd]. rewrite !sleeps_app, stream_sleeps_reads by done.
    repeat constructor.
Qed.

(** C7: the read loop of every connection is entered with the flag false and
    with [scan_time = 100 / scan_frequency] and
    [time_increment = angular_resolution / 10000 / 360 / scan_time], the same
    in the 2D scan and in the multi-return scan, whatever the messages held
    before. *)
Theorem streaming_entry n (cfg : ScanConfig) (range : ScanOutputRange) ts :
  let st := enter_streaming n cfg range in
  session ids host port n cfg range ts =
    (node (stream ids st ts).1.1,
     connecting host port ++ configuring ++ (stream ids st ts).1.2
       ++ [Driver Disconnect],
     (stream ids st ts).2) ∧
  synced st = false ∧
  iters st = cursors_at 0 ∧
  multi_scan_time (multi_scan (node st)) =
    to_float32 (fdiv (of_int 100) (of_int (scan_frequency cfg))) ∧
  multi_time_increment (multi_scan (node st)) =
    to_float32
      (fdiv (fdiv (fdiv (of_int (angular_resolution range)) (of_int 10000))
                  (of_int 360))
            (multi_scan_time (multi_scan (node st)))) ∧
  scan_time (scan (node st)) = multi_scan_time (multi_scan (node st)) ∧
  time_increment (scan (node st)) = multi_time_increment (multi_scan (node st)).
Proof.
  cbv zeta. split; [apply session_eq|]. by split_and!.
Qed.
End Session.

(** ** The properties on concrete sessions *)

Lemma getLayerIndex_slots_witness :
  (unknown_layer ∉ [L2; L3; L1; L4]) ∧ getLayerIndex example_layers unknown_layer = 0.
Proof.
  assert (unknown_layer ∉ [L2; L3; L1; L4]) as Hout.
  { apply (bool_decide_unpack _). vm_compute. exact I. }
  split; [exact Hout|].
  destruct (getLayerIndex_slots example_layers unknown_layer) as (_ & _ & _ & _ & _ & H).
  exact (H Hout).
Defined.

Lemma routing_unconditional_witness :
  let st := enter_streaming (small_node 4) example_cfg example_range in
  let r := iteration example_layers st (tick 1%Z (unit_of L3 2 5)) in
  synced r.1.1 = false ∧
  fst <$> scans r.1.2 = [1] ∧
  fills r.1.2 = [] ∧ clouds r.1.2 = [] ∧
  data (cloud (node r.1.1)) = data (cloud (node st)) ∧
  iters r.1.1 = iters st.
Proof.
  cbv zeta.
  destruct (routing_unconditional example_layers
              (enter_streaming (small_node 4) example_cfg example_range)
              1%Z (unit_of L3 2 5))
    as (Hscans & _ & _ & _ & _ & _ & Hoff).
  assert (synced (iteration example_layers
                    (enter_streaming (small_node 4) example_cfg example_range)
                    (tick 1%Z (unit_of L3 2 5))).1.1 = false) as Hsyn
    by reflexivity.
  destruct (Hoff Hsyn) as (Hf & Hc & Hd & Hi).
  split; [exact Hsyn|]. split; [by rewrite Hscans|].
  split; [exact Hf|]. split; [exact Hc|]. split; [exact Hd|exact Hi].
Defined.





Lemma cloud_published_iff_witness :
  let ts := [tick 1%Z (unit_of L3 1 1); tick 2%Z (unit_of L4 1 2)] in
  Forall (λ d : ScanData Q, layer_angle d ≠ L2) (units ts) ∧
  clouds (stream example_layers
            (enter_streaming (small_node 4) example_cfg example_range) ts).1.2 = [].
Proof.
  cbv zeta.
  assert (Forall (λ d : ScanData Q, layer_angle d ≠ L2)
            (units [tick 1%Z (unit_of L3 1 1); tick 2%Z (unit_of L4 1 2)]))
    as Hno.
  { repeat constructor; vm_compute; discriminate. }
  split; [exact Hno|].
  destruct (cloud_published_iff example_layers (small_node 4) example_cfg
              example_range
              [tick 1%Z (unit_of L3 1 1); tick 2%Z (unit_of L4 1 2)])
    as (_ & _ & Hnone).
  exact (Hnone Hno).
Defined.

(** C1 as it was stated fails: a unit of Layer2 followed at once by a unit of
    Layer4 publishes a cloud, though no unit of Layer3 or Layer1 was read in
    between. *)
Lemma partial_cycle_published :
  let ts := [tick 1%Z (unit_of L2 1 1); tick 2%Z (unit_of L4 1 4)] in
  length (clouds (stream example_layers
                    (enter_streaming (small_node 4) example_cfg example_range)
                    ts).1.2) = 1 ∧
  (L3 ∉ layer_angle <$> units ts) ∧
  (L1 ∉ layer_angle <$> units ts).
Proof.
  cbv zeta. split; [reflexivity|].
  split; apply (bool_decide_unpack _); vm_compute; exact I.
Qed.

Lemma new_start_discards_witness :
  let r := stream example_layers (synced_stream 8 5)
             [ tick 1%Z (unit_of L2 2 1); tick 2%Z (unit_of L3 2 2);
               tick 3%Z (unit_of L2 2 3); tick 4%Z (unit_of L3 2 4);
               tick 5%Z (unit_of L1 2 5); tick 6%Z (unit_of L4 2 6) ] in
  2 + 2 + 2 + 2 ≤ length (data (cloud (node (synced_stream 8 5)))) ∧
  ∃ cl,
    clouds r.1.2 = [cl] ∧
    take (2 + 2 + 2 + 2) (data cl) = point_of <$> [3; 3; 4; 4; 5; 5; 6; 6]%Q.
Proof.
  cbv zeta.
  assert (2 + 2 + 2 + 2 ≤ length (data (cloud (node (synced_stream 8 5)))))
    as Hfit by (simpl; lia).
  split; [exact Hfit|].
  destruct (new_start_discards example_layers (synced_stream 8 5)
              1%Z 2%Z 3%Z 4%Z 5%Z 6%Z
              (unit_of L2 2 1) (unit_of L3 2 2) (unit_of L2 2 3)
              (unit_of L3 2 4) (unit_of L1 2 5) (unit_of L4 2 6)
              eq_refl eq_refl eq_refl eq_refl eq_refl eq_refl)
    as (_ & _ & _ & _ & _ & _ & cl & Hcl & Hdata).
  exists cl. split; [exact Hcl|]. exact (Hdata Hfit).
Defined.

Lemma written_at_cursor_witness :
  let ds := [unit_of L2 scan_count 1; unit_of L3 scan_count 2;
             unit_of L1 scan_count 3; unit_of L4 scan_count 4] in
  let st := enter_streaming (initial_node 0%Z) example_cfg example_range in
  let r := stream example_layers st
             [ tick 1%Z (unit_of L2 scan_count 1); tick 2%Z (unit_of L3 scan_count 2);
               tick 3%Z (unit_of L1 scan_count 3); tick 4%Z (unit_of L4 scan_count 4) ] in
  Forall (λ d : ScanData Q, length (samples d) = scan_count) ds ∧
  length (data (cloud (node st))) = cloud_height * scan_count ∧
  (fills r.1.2).*1 =
    cursors_at <$> [0; scan_count; 2 * scan_count; 3 * scan_count] ∧
  data <$> clouds r.1.2 =
    [replicate scan_count (point_of 1) ++ replicate scan_count (point_of 2) ++
     replicate scan_count (point_of 3) ++ replicate scan_count (point_of 4)].
Proof.
  cbv zeta.
  assert (Forall (λ d : ScanData Q, length (samples d) = scan_count)
            [unit_of L2 scan_count 1; unit_of L3 scan_count 2;
             unit_of L1 scan_count 3; unit_of L4 scan_count 4]) as Hlen.
  { repeat constructor; apply length_replicate. }
  assert (length (data (cloud (node
            (enter_streaming (initial_node 0%Z) example_cfg example_range))))
          = cloud_height * scan_count) as Hbuf.
  { apply length_replicate. }
  destruct (written_at_cursor example_layers (small_node 0) example_cfg
              example_range []
              (enter_streaming (initial_node 0%Z) example_cfg example_range)
              1%Z 2%Z 3%Z 4%Z
              (unit_of L2 scan_count 1) (unit_of L3 scan_count 2)
              (unit_of L1 scan_count 3) (unit_of L4 scan_count 4))
    as (_ & Hcycle).
  destruct (Hcycle eq_refl eq_refl eq_refl eq_refl Hlen) as (Hfills & Hdata).
  split; [exact Hlen|]. split; [exact Hbuf|].
  split; [by rewrite Hfills|]. exact (Hdata Hbuf).
Defined.

(** C5 as it was stated fails: read right after the unit of Layer2, the unit
    of Layer1 is written from point [scan_count] on, the region of slot 1,
    while [getLayerIndex] gives it slot 2. *)
Lemma layer_region_depends_on_order :
  let ts := [ tick 1%Z (unit_of L2 scan_count 1);
              tick 2%Z (unit_of L1 scan_count 3) ] in
  let tr := (stream example_layers
               (enter_streaming (initial_node 0%Z) example_cfg example_range)
               ts).1.2 in
  fills tr = [ (cursors_at 0, unit_of L2 scan_count 1);
               (cursors_at scan_count, unit_of L1 scan_count 3) ] ∧
  getLayerIndex example_layers L1 = 2 ∧
  ¬ Forall (λ w, w.1 = cursors_at
                         (getLayerIndex example_layers (layer_angle w.2) * scan_count))
      (fills tr).
Proof.
  cbv zeta.
  assert (fills (stream example_layers
                   (enter_streaming (initial_node 0%Z) example_cfg example_range)
                   [ tick 1%Z (unit_of L2 scan_count 1);
                     tick 2%Z (unit_of L1 scan_count 3) ]).1.2 =
          [ (cursors_at 0, unit_of L2 scan_count 1);
            (cursors_at scan_count, unit_of L1 scan_count 3) ]) as Hfills.
  { rewrite (stream_fills example_layers _ _ 0) by reflexivity. reflexivity. }
  split; [exact Hfills|]. split; [reflexivity|].
  rewrite Hfills. intros Hall.
  apply Forall_cons in Hall as [_ Hall]. apply Forall_cons in Hall as [Hall _].
  vm_compute in Hall. discriminate Hall.
Qed.

(** C8 as it was stated fails: the cloud of a cycle whose unit of Layer2 was
    read in the iteration that started at time 1 and whose unit of Layer4 in
    the one that started at time 4 is stamped 4. *)
Lemma stamp_is_not_cycle_start :
  let ts := [ tick 1%Z (unit_of L2 1 1); tick 2%Z (unit_of L3 1 2);
              tick 3%Z (unit_of L1 1 3); tick 4%Z (unit_of L4 1 4) ] in
  let tr := (stream example_layers
               (enter_streaming (small_node 4) example_cfg example_range)
               ts).1.2 in
  stamp <$> clouds tr = [4%Z] ∧ stamp <$> clouds tr ≠ [1%Z].
Proof.
  cbv zeta. split; [reflexivity|]. vm_compute. discriminate.
Qed.

Lemma timeout_and_retry_witness :
  let pre := [tick 1%Z (unit_of L2 1 1)] in
  let s := session example_layers default_host default_port (small_node 4)
             example_cfg example_range (pre ++ timeout 2%Z :: []) in
  Forall (λ t : Tick Q, is_Some (read t)) pre ∧
  s.2 = TimedOut ∧
  sleeps s.1.2 = [10%Z] ∧
  sleeps (run example_layers default_host default_port (small_node 4)
            (replicate 3 Refused ++ [])).2 = [1%Z; 1%Z; 1%Z].
Proof.
  cbv zeta.
  assert (Forall (λ t : Tick Q, is_Some (read t)) [tick 1%Z (unit_of L2 1 1)])
    as Hpre.
  { repeat constructor. by eexists. }
  destruct (timeout_and_retry example_layers default_host default_port
              (small_node 4) example_cfg example_range
              [tick 1%Z (unit_of L2 1 1)] [] 2%Z [] 3 Hpre)
    as ((ev & Htrace & Hquiet) & Hend & _ & _ & Hretry & _).
  split; [exact Hpre|]. split; [exact Hend|].
  split.
  - rewrite Htrace, sleeps_app, Hquiet. reflexivity.
  - rewrite Hretry. reflexivity.
Defined.

(** ** Further properties of the router *)

Section RouterTables.
Context {F : Type} `{!FloatOps F}.
Context (ids : CoLaALayers).
Implicit Types (d : ScanData F) (st : Stream F) (ts : list (Tick F)).

(** X1: whatever the identifier, [layer_pubs.at] and [layer_multi_pubs.at]
    find a publisher; each of the four layers is published on the two topics
    that carry its number, and an identifier that is none of the four on the
    topics of layer 2. *)
Theorem layer_topics (layer : Z) :
  is_Some (layer_pubs !! getLayerIndex ids layer) ∧
  is_Some (layer_multi_pubs !! getLayerIndex ids layer) ∧
  layer_pubs !! getLayerIndex ids (Layer1 ids) = Some "scan_layer_1" ∧
  layer_pubs !! getLayerIndex ids (Layer2 ids) = Some "scan_layer_2" ∧
  layer_pubs !! getLayerIndex ids (Layer3 ids) = Some "scan_layer_3" ∧
  layer_pubs !! getLayerIndex ids (Layer4 ids) = Some "scan_layer_4" ∧
  layer_multi_pubs !! getLayerIndex ids (Layer1 ids) = Some "scan_layer_1_multi" ∧
  layer_multi_pubs !! getLayerIndex ids (Layer2 ids) = Some "scan_layer_2_multi" ∧
  layer_multi_pubs !! getLayerIndex ids (Layer3 ids) = Some "scan_layer_3_multi" ∧
  layer_multi_pubs !! getLayerIndex ids (Layer4 ids) = Some "scan_layer_4_multi" ∧
  (layer ∉ [Layer2 ids; Layer3 ids; Layer1 ids; Layer4 ids] →
   layer_pubs !! getLayerIndex ids layer = Some "scan_layer_2" ∧
   layer_multi_pubs !! getLayerIndex ids layer = Some "scan_layer_2_multi").
Proof.
  destruct (getLayerIndex_known ids) as (E2 & E3 & E1 & E4).
  rewrite E2, E3, E1, E4.
  split_and!; try done; try apply layer_pubs_at.
  intros Hout. by rewrite (getLayerIndex_unknown ids _ Hout).
Qed.

(** X2: the slot tells the layer, but for slot 0: slots 1, 2 and 3 are given
    to Layer3, Layer1 and Layer4 only, and slot 0 to Layer2 and to every
    identifier that is none of the four. *)
Theorem getLayerIndex_inv (layer : Z) :
  (getLayerIndex ids layer = 1 ↔ layer = Layer3 ids) ∧
  (getLayerIndex ids layer = 2 ↔ layer = Layer1 ids) ∧
  (getLayerIndex ids layer = 3 ↔ layer = Layer4 ids) ∧
  (getLayerIndex ids layer = 0 ↔
   layer = Layer2 ids ∨
   layer ∉ [Layer2 ids; Layer3 ids; Layer1 ids; Layer4 ids]).
Proof.
  destruct (getLayerIndex_known ids) as (E2 & E3 & E1 & E4).
  destruct (layers_ne ids) as (H23 & H21 & H24 & H31 & H34 & H14).
  assert (layer = Layer2 ids ∨ layer = Layer3 ids ∨ layer = Layer1 ids ∨
          layer = Layer4 ids ∨
          layer ∉ [Layer2 ids; Layer3 ids; Layer1 ids; Layer4 ids]) as Hcases.
  { rewrite !not_elem_of_cons.
    destruct (decide (layer = Layer2 ids)); [by left|].
    destruct (decide (layer = Layer3 ids)); [by right; left|].
    destruct (decide (layer = Layer1 ids)); [by right; right; left|].
    destruct (decide (layer = Layer4 ids)); [by right; right; right; left|].
    do 4 right. split_and!; try done. apply not_elem_of_nil. }
  destruct Hcases as [->|[->|[->|[->|Hout]]]];
    rewrite ?E2, ?E3, ?E1, ?E4, ?(getLayerIndex_unknown ids layer) by done;
    split_and!; split; intros Hx;
    try done; try lia; try congruence; try (by left); try (by right);
    try (destruct Hx as [Hx|Hx]; [congruence|]);
    try (subst layer; rename Hout into Hx);
    exfalso; apply Hx; repeat first [by left | right].
Qed.

Lemma on_unit_spins st d :
  spins (on_unit ids st d).2 =
    if is_start ids d || synced st then [()] else [].
Proof.
  rewrite on_unit_eq; simpl.
  destruct (is_start ids d || synced st); simpl; [|done].
  by destruct (is_end ids d).
Qed.

Lemma on_unit_calls st d : calls (on_unit ids st d).2 = [].
Proof.
  rewrite on_unit_eq; simpl.
  destruct (is_start ids d || synced st); simpl; [|done].
  by destruct (is_end ids d).
Qed.

(** X3: in a read loop every unit read is published once as a 2D scan and
    once as a multi-return scan, in the order of arrival, on the slot of its
    layer, and the message carries that unit; this holds before and after
    the first start marker alike. *)
Theorem stream_routes_every_unit st ts :
  (λ km, (km.1, scan_data km.2)) <$> scans (stream ids st ts).1.2 =
    (λ d, (getLayerIndex ids (layer_angle d), Some d)) <$> units ts ∧
  (λ km, (km.1, multi_data km.2)) <$> multi_scans (stream ids st ts).1.2 =
    (λ d, (getLayerIndex ids (layer_angle d), Some d)) <$> units ts.
Proof.
  revert st. induction ts as [|now0 ts|now0 d ts IH] using ticks_ind; intros st.
  - done.
  - by rewrite stream_timeout.
  - rewrite stream_tick, units_tick. cbv zeta. cbn [fst snd].
    rewrite !scans_app, !multi_scans_app, on_unit_scans, on_unit_multi_scans.
    change (scans [Log DEBUG _; Driver GetScanData])
      with (@nil (nat * LaserScan F)).
    change (multi_scans [Log DEBUG _; Driver GetScanData])
      with (@nil (nat * MultiEchoLaserScan F)).
    cbn [app]. rewrite !fmap_cons.
    destruct (IH (on_unit ids (stamp_cloud now0 st) d).1) as [IH1 IH2].
    by rewrite IH1, IH2.
Qed.

(** X4: [ros::spinOnce()] is called once in every iteration that writes a
    unit into the cloud, and in no other: not for a unit read before the
    first start marker, and not when the read timed out. *)
Theorem spin_once_per_written_unit st ts :
  length (spins (stream ids st ts).1.2) = length (fills (stream ids st ts).1.2).
Proof.
  revert st. induction ts as [|now0 ts|now0 d ts IH] using ticks_ind; intros st.
  - done.
  - by rewrite stream_timeout.
  - rewrite stream_tick. cbv zeta. cbn [fst snd].
    rewrite !fills_app, !length_app, on_unit_fills.
    unfold spins at 1. rewrite !omap_app, !length_app.
    fold (spins (on_unit ids (stamp_cloud now0 st) d).2).
    fold (spins (stream ids (on_unit ids (stamp_cloud now0 st) d).1 ts).1.2).
    rewrite on_unit_spins, IH. cbn [stamp_cloud synced].
    by destruct (is_start ids d || synced st).
Qed.
End RouterTables.

(** ** Further properties of the cloud assembler *)

Section Cycle.
Context {F : Type} `{!FloatOps F}.
Context (ids : CoLaALayers).
Implicit Types (d : ScanData F) (st : Stream F) (ts : list (Tick F)).

Lemma advance_by_add a b (it : Cursors) :
  advance_by b (advance_by a it) = advance_by (a + b) it.
Proof. destruct it; unfold advance_by; simpl; f_equal; lia. Qed.

Lemma all_samples_cons d (us : list (ScanData F)) :
  all_samples (d :: us) = samples d ++ all_samples us.
Proof. reflexivity. Qed.

(** Units that do not start a cycle only move the iterators forward. *)
Lemma stream_cursors ts st :
  Forall (λ t, ∃ d, read t = Some d ∧ is_start ids d = false) ts →
  synced st = true →
  iters (stream ids st ts).1.1 =
    advance_by (length (all_samples (units ts))) (iters st) ∧
  synced (stream ids st ts).1.1 = true.
Proof.
  revert st. induction ts as [|now0 ts|now0 d ts IH] using ticks_ind;
    intros st Hts Hsyn.
  - split; [|done]. cbn. by rewrite advance_by_0.
  - apply Forall_cons in Hts as [(d & Hd & _) _]. done.
  - apply Forall_cons in Hts as [(d' & Hd & Hs) Hts].
    cbn [tick read] in Hd. injection Hd as <-.
    rewrite stream_tick, units_tick, all_samples_cons, length_app.
    cbv zeta. cbn [fst snd].
    destruct (IH (on_unit ids (stamp_cloud now0 st) d).1 Hts) as [IHi IHs].
    { rewrite on_unit_synced. cbn [stamp_cloud synced]. rewrite Hsyn.
      apply orb_true_r. }
    split; [|done].
    rewrite IHi, on_unit_iters, Hs. cbn [stamp_cloud synced iters].
    by rewrite Hsyn, advance_by_add.
Qed.

(** Units that do not start a cycle and fit are written one after the other,
    and nothing else of the buffer changes. *)
Lemma stream_written ts st c :
  Forall (λ t, ∃ d, read t = Some d ∧ is_start ids d = false) ts →
  iters st = cursors_at c → synced st = true →
  c + length (all_samples (units ts)) ≤ length (data (cloud (node st))) →
  data (cloud (node (stream ids st ts).1.1)) =
    take c (data (cloud (node st))) ++ all_samples (units ts)
      ++ drop (c + length (all_samples (units ts))) (data (cloud (node st))).
Proof.
  revert st c. induction ts as [|now0 ts|now0 d ts IH] using ticks_ind;
    intros st c Hts Hc Hsyn Hfit.
  - cbn. rewrite Nat.add_0_r. by rewrite take_drop.
  - apply Forall_cons in Hts as [(d & Hd & _) _]. done.
  - apply Forall_cons in Hts as [(d' & Hd & Hs) Hts].
    cbn [tick read] in Hd. injection Hd as <-.
    rewrite units_tick, all_samples_cons, length_app in Hfit.
    rewrite stream_tick, units_tick, all_samples_cons, length_app.
    cbv zeta. cbn [fst snd].
    set (st1 := (on_unit ids (stamp_cloud now0 st) d).1).
    set (buf := data (cloud (node st))) in *.
    set (k := length (samples d)) in *.
    set (rest := all_samples (units ts)) in *.
    assert (data (cloud (node st1)) = take c buf ++ samples d ++ drop (c + k) buf)
      as Hdata.
    { unfold st1. rewrite on_unit_data, Hs. cbn [stamp_cloud synced iters orb].
      rewrite Hsyn, Hc, stamp_cloud_data. fold buf.
      rewrite fill_points_at by (fold k; lia). done. }
    assert (iters st1 = cursors_at (c + k)) as Hit.
    { unfold st1. rewrite on_unit_iters, Hs. cbn [stamp_cloud synced iters].
      by rewrite Hsyn, Hc. }
    assert (synced st1 = true) as Hsyn1.
    { unfold st1. rewrite on_unit_synced. cbn [stamp_cloud synced].
      rewrite Hsyn. apply orb_true_r. }
    assert (length (take c buf ++ samples d) = c + k) as Hlen.
    { rewrite length_app, length_take. fold k. lia. }
    rewrite (IH st1 (c + k) Hts Hit Hsyn1).
    + rewrite Hdata. fold rest.
      rewrite (app_assoc (take c buf)).
      rewrite take_app_length' by done.
      replace (c + k + length rest) with (length (take c buf ++ samples d) + length rest)
        by lia.
      rewrite drop_app_add, drop_drop.
      replace (c + k + length rest) with (c + (k + length rest)) by lia.
      by rewrite <-!app_assoc.
    + rewrite Hdata, !length_app, length_take, length_drop. fold rest k. lia.
Qed.

Lemma stream_app ts1 ts2 st :
  Forall (λ t : Tick F, is_Some (read t)) ts1 →
  stream ids st (ts1 ++ ts2) =
    ((stream ids (stream ids st ts1).1.1 ts2).1.1,
     (stream ids st ts1).1.2 ++ (stream ids (stream ids st ts1).1.1 ts2).1.2,
     (stream ids (stream ids st ts1).1.1 ts2).2).
Proof.
  revert st. induction ts1 as [|now0 ts1|now0 d ts1 IH] using ticks_ind;
    intros st Hr.
  - cbn. by destruct (stream ids st ts2) as [[? ?] ?].
  - apply Forall_cons in Hr as [[? Hd] _]. done.
  - apply Forall_cons in Hr as [_ Hr]. cbn [app].
    rewrite !stream_tick. cbv zeta. rewrite IH by done. cbn [fst snd].
    by rewrite <-!app_assoc.
Qed.

(** Without a unit of Layer4 a loop publishes no cloud. *)
Lemma stream_no_end ts st :
  Forall (λ t, ∃ d, read t = Some d ∧ is_end ids d = false) ts →
  clouds (stream ids st ts).1.2 = [].
Proof.
  revert st. induction ts as [|now0 ts|now0 d ts IH] using ticks_ind;
    intros st Hts.
  - done.
  - apply Forall_cons in Hts as [(d & Hd & _) _]. done.
  - apply Forall_cons in Hts as [(d' & Hd & He) Hts].
    cbn [tick read] in Hd. injection Hd as <-.
    rewrite stream_tick. cbv zeta. cbn [fst snd].
    rewrite !clouds_app, on_unit_clouds, He, andb_false_r, IH by done. done.
Qed.

(** X5: a cycle that fits (a unit of Layer2, then units that are neither
    Layer2 nor Layer4, then a unit of Layer4) publishes exactly one cloud,
    stamped with the time of its last iteration; the cloud holds the samples
    of the cycle in the order of arrival, followed by the points that the
    buffer held before the cycle: what a short cycle does not overwrite is
    published as it was. *)
Theorem cycle_cloud st (now0 now1 : RosTime) (s e : ScanData F) (mid : list (Tick F)) :
  is_start ids s = true → is_end ids e = true →
  Forall (λ t, ∃ d, read t = Some d ∧ is_start ids d = false ∧ is_end ids d = false)
    mid →
  length (all_samples (s :: units mid ++ [e])) ≤ length (data (cloud (node st))) →
  ∃ cl,
    clouds (stream ids st (tick now0 s :: mid ++ [tick now1 e])).1.2 = [cl] ∧
    stamp cl = now1 ∧
    data cl =
      all_samples (s :: units mid ++ [e])
        ++ drop (length (all_samples (s :: units mid ++ [e])))
             (data (cloud (node st))).
Proof.
  intros Hs He Hmid Hfit.
  assert (is_start ids e = false) as Hse.
  { unfold is_start, is_end in *. apply Z.eqb_eq in He. apply Z.eqb_neq.
    rewrite He. destruct (layers_ne ids) as (_ & _ & H24 & _). congruence. }
  assert (Forall (λ t, ∃ d, read t = Some d ∧ is_start ids d = false)
            (mid ++ [tick now1 e])) as Hrest.
  { apply Forall_app. split.
    - eapply Forall_impl; [exact Hmid|]. intros t (d & Hd & Hns & _). eauto.
    - repeat constructor. by exists e. }
  assert (Forall (λ t, ∃ d, read t = Some d ∧ is_end ids d = false) mid)
    as Hnoend.
  { eapply Forall_impl; [exact Hmid|]. intros t (d & Hd & _ & Hne). eauto. }
  assert (Forall (λ t : Tick F, is_Some (read t)) mid) as Hreads.
  { eapply Forall_impl; [exact Hmid|]. intros t (d & Hd & _). by eexists. }
  assert (units (mid ++ [tick now1 e]) = units mid ++ [e]) as Hunits.
  { by rewrite units_app_reads. }
  rewrite all_samples_cons, length_app in Hfit. rewrite all_samples_cons, length_app.
  set (buf := data (cloud (node st))) in *.
  set (st1 := (on_unit ids (stamp_cloud now0 st) s).1).
  assert (iters st1 = cursors_at (length (samples s)) ∧ synced st1 = true ∧
          data (cloud (node st1)) = samples s ++ drop (length (samples s)) buf)
    as (Hit & Hsyn & Hdata).
  { unfold st1. rewrite on_unit_iters, on_unit_synced, on_unit_data, Hs.
    cbn [orb]. split_and!; try done.
    change start_iters with (cursors_at 0). rewrite stamp_cloud_data. fold buf.
    rewrite fill_points_at by (cbn [Nat.add]; lia). done. }
  set (st2 := (stream ids st1 mid).1.1).
  assert (synced st2 = true) as Hsyn2 by (by apply stream_synced).
  set (st3 := (on_unit ids (stamp_cloud now1 st2) e).1).
  assert ((stream ids st1 (mid ++ [tick now1 e])).1.1 = st3) as Hfinal.
  { rewrite stream_app by done. cbn [fst]. fold st2. by rewrite stream_tick. }
  exists (cloud (node st3)). split_and!.
  - rewrite stream_tick. cbv zeta. cbn [fst snd]. fold st1.
    rewrite stream_app by done. cbn [fst snd]. fold st2.
    rewrite stream_tick. cbv zeta. cbn [stream fst snd]. fold st3.
    rewrite !clouds_app, !on_unit_clouds, (stream_no_end mid) by done.
    rewrite (start_is_not_end _ _ Hs), He, andb_false_r.
    cbn [stamp_cloud synced]. rewrite Hsyn2, orb_true_r. done.
  - unfold st3. by rewrite on_unit_stamp.
  - rewrite <-Hfinal.
    rewrite (stream_written _ _ (length (samples s)) Hrest Hit Hsyn).
    + rewrite Hunits, Hdata.
      rewrite take_app_length.
      rewrite drop_app_add, drop_drop. by rewrite <-!app_assoc.
    + rewrite Hunits, Hdata, length_app, length_drop. lia.
Qed.

(** X6: while the flag is set, units other than Layer2 move each iterator
    forward by their number of samples, whether or not they fit; only a unit
    of Layer2 takes the iterators back, so that nothing keeps them within the
    cloud. *)
Theorem cursors_only_advance st ts :
  Forall (λ t, ∃ d, read t = Some d ∧ is_start ids d = false) ts →
  synced st = true →
  iters (stream ids st ts).1.1 =
    advance_by (length (all_samples (units ts))) (iters st) ∧
  length (data (cloud (node (stream ids st ts).1.1))) =
    length (data (cloud (node st))).
Proof.
  intros Hts Hsyn. split; [by apply stream_cursors|].
  clear Hts Hsyn. revert st.
  induction ts as [|now0 ts|now0 d ts IH] using ticks_ind; intros st.
  - done.
  - by rewrite stream_timeout.
  - rewrite stream_tick. cbv zeta. cbn [fst].
    by rewrite IH, on_unit_length, stamp_cloud_data.
Qed.
End Cycle.

(** ** Further properties of the outer loop *)

Section Outer.
Context {F : Type} `{!FloatOps F}.
Context (ids : CoLaALayers) (host : string) (port : Z).
Implicit Types (st : Stream F) (n : Node F) (ts : list (Tick F)).
Implicit Types (script : list (Attempt F)) (tr : list (Event F)).

Lemma timed_out_tick (now0 : RosTime) (d : ScanData F) ts :
  timed_out (tick now0 d :: ts) = timed_out ts.
Proof. reflexivity. Qed.

(** A read loop is left by a time-out if one of its reads fails, and by
    [ros::ok()] otherwise. *)
Lemma stream_ended ts st :
  (stream ids st ts).2 = if timed_out ts then TimedOut else Shutdown.
Proof.
  revert st. induction ts as [|now0 ts|now0 d ts IH] using ticks_ind; intros st.
  - done.
  - by rewrite stream_timeout.
  - rewrite stream_tick, timed_out_tick. cbv zeta. cbn [snd]. apply IH.
Qed.

Lemma stream_sleeps ts st :
  sleeps (stream ids st ts).1.2 = if timed_out ts then [10%Z] else [].
Proof.
  revert st. induction ts as [|now0 ts|now0 d ts IH] using ticks_ind; intros st.
  - done.
  - by rewrite stream_timeout.
  - rewrite stream_tick, timed_out_tick. cbv zeta. cbn [fst snd].
    by rewrite !sleeps_app, on_unit_sleeps, IH.
Qed.

Lemma calls_app tr1 tr2 : calls (tr1 ++ tr2) = calls tr1 ++ calls tr2.
Proof. apply omap_app. Qed.

Lemma count_calls_app kind tr1 tr2 :
  count_calls kind (tr1 ++ tr2) = count_calls kind tr1 + count_calls kind tr2.
Proof. unfold count_calls. by rewrite calls_app, filter_app, length_app. Qed.

(** The read loop asks the driver for scan data only. *)
Lemma stream_count_calls kind ts st :
  kind GetScanData = false → count_calls kind (stream ids st ts).1.2 = 0.
Proof.
  intros Hkind. revert st.
  induction ts as [|now0 ts|now0 d ts IH] using ticks_ind; intros st.
  - done.
  - rewrite stream_timeout. unfold count_calls. cbn [fst snd calls omap list_omap].
    by rewrite filter_cons_False, filter_nil by (by apply Is_true_false_2).
  - rewrite stream_tick. cbv zeta. cbn [fst snd].
    rewrite !count_calls_app, IH. unfold count_calls.
    rewrite on_unit_calls. cbn [calls omap list_omap].
    by rewrite filter_cons_False, !filter_nil by (by apply Is_true_false_2).
Qed.

Lemma session_count_calls kind n (cfg : ScanConfig) (range : ScanOutputRange) ts :
  kind GetScanData = false →
  count_calls kind (session ids host port n cfg range ts).1.2 =
    count_calls kind (connecting (F:=F) host port)
      + count_calls kind (configuring (F:=F))
      + count_calls kind [Driver (F:=F) Disconnect].
Proof.
  intros Hkind. rewrite session_eq. cbv zeta. cbn [fst snd].
  rewrite !count_calls_app, stream_count_calls by done. lia.
Qed.

Lemma session_ended n (cfg : ScanConfig) (range : ScanOutputRange) ts :
  (session ids host port n cfg range ts).2 =
    if timed_out ts then TimedOut else Shutdown.
Proof. rewrite session_eq. cbv zeta. cbn [snd]. apply stream_ended. Qed.

Lemma run_connected n (cfg : ScanConfig) (range : ScanOutputRange) ts script :
  run ids host port n (Connected cfg range ts :: script) =
    let s := session ids host port n cfg range ts in
    if timed_out ts
    then ((run ids host port s.1.1 script).1,
          s.1.2 ++ (run ids host port s.1.1 script).2)
    else s.1.
Proof.
  cbv zeta. pose proof (session_ended n cfg range ts) as He.
  destruct (timed_out ts).
  - by rewrite run_timed_out.
  - cbn [run]. destruct (session ids host port n cfg range ts) as [[n1 ev1] e].
    cbn [snd] in He. by rewrite He.
Qed.

(** X7: every attempt calls [connect] once; every connection that was opened
    is logged in to once and closed once, also when the loop is left by
    [ros::ok()]; a refused attempt neither logs in nor disconnects. *)
Theorem run_opens_and_closes n script :
  let tr := (run ids host port n script).2 in
  count_calls is_connect tr = attempts script ∧
  count_calls is_login tr = length (sessions script) ∧
  count_calls is_disconnect tr = length (sessions script) ∧
  length (sessions script) ≤ attempts script.
Proof.
  cbv zeta. revert n.
  induction script as [|[|cfg range ts] script IH]; intros n.
  - done.
  - rewrite run_refused. cbn [fst snd sessions attempts].
    rewrite !count_calls_app. destruct (IH n) as (-> & -> & -> & Hle).
    split_and!; try done. lia.
  - rewrite run_connected. cbv zeta. cbn [sessions attempts].
    destruct (timed_out ts); cbn [fst snd length].
    + rewrite !count_calls_app, !session_count_calls by done.
      destruct (IH (session ids host port n cfg range ts).1.1)
        as (-> & -> & -> & Hle).
      split_and!; try done. lia.
    + rewrite !session_count_calls by done. by split_and!.
Qed.

(** X8: a connection sleeps once, for 10, if one of its reads timed out, and
    not at all otherwise; over a whole run the node only ever sleeps for 1 or
    for 10. *)
Theorem run_sleeps n (cfg : ScanConfig) (range : ScanOutputRange) ts script :
  sleeps (session ids host port n cfg range ts).1.2 =
    (if timed_out ts then [10%Z] else []) ∧
  Forall (λ s, s = 1%Z ∨ s = 10%Z) (sleeps (run ids host port n script).2).
Proof.
  assert (∀ n' cfg' range' ts',
            sleeps (session ids host port n' cfg' range' ts').1.2 =
              if timed_out ts' then [10%Z] else []) as Hsession.
  { intros n' cfg' range' ts'. rewrite session_eq. cbv zeta. cbn [fst snd].
    rewrite !sleeps_app, stream_sleeps. cbn. apply app_nil_r. }
  split; [apply Hsession|]. clear cfg range ts. revert n.
  induction script as [|[|cfg range ts] script IH]; intros n.
  - constructor.
  - rewrite run_refused. cbn [fst snd]. rewrite sleeps_app.
    apply Forall_app. split; [|apply IH].
    change (sleeps (refused (F:=F) host port)) with [1%Z].
    apply Forall_singleton. by left.
  - rewrite run_connected. cbv zeta.
    destruct (timed_out ts) eqn:Hout; cbn [fst snd].
    + rewrite sleeps_app, Hsession, Hout.
      apply Forall_app. split; [|apply IH]. apply Forall_singleton. by right.
    + rewrite Hsession, Hout. constructor.
Qed.

(** X9: the clouds of a run are those of its connections, each counted from
    its own first unit of Layer2: what a connection had read of a cycle
    before it was closed publishes nothing in the next one. *)
Theorem run_clouds n script :
  length (clouds (run ids host port n script).2) =
    sum_list ((λ ts, length (filter (λ d, is_end ids d)
                               (from_start ids (units ts))))
                <$> sessions script).
Proof.
  assert (∀ n' cfg' range' ts',
            length (clouds (session ids host port n' cfg' range' ts').1.2) =
              length (filter (λ d, is_end ids d) (from_start ids (units ts'))))
    as Hsession.
  { intros n' cfg' range' ts'. rewrite session_eq. cbv zeta. cbn [fst snd].
    rewrite !clouds_app, !length_app, stream_clouds_length.
    cbn [enter_streaming synced]. cbn. lia. }
  revert n. induction script as [|[|cfg range ts] script IH]; intros n.
  - done.
  - rewrite run_refused. cbn [fst snd sessions].
    rewrite clouds_app, length_app, IH. done.
  - rewrite run_connected. cbv zeta. cbn [sessions].
    destruct (timed_out ts); cbn [fst snd fmap list_fmap sum_list sum_list_with].
    + rewrite clouds_app, length_app, Hsession, IH. done.
    + rewrite Hsession. cbn. lia.
Qed.

(** X10: when [ros::ok()] turns false in the read loop, the transport is
    closed and the run ends there: no sleep, and no further attempt to
    connect, whatever the script would still answer. *)
Theorem run_ends_on_shutdown n (cfg : ScanConfig) (range : ScanOutputRange)
    ts script :
  timed_out ts = false →
  let r := run ids host port n (Connected cfg range ts :: script) in
  r = (session ids host port n cfg range ts).1 ∧
  last r.2 = Some (Driver Disconnect) ∧
  sleeps r.2 = [] ∧
  count_calls is_connect r.2 = 1.
Proof.
  intros Hout. cbv zeta. rewrite run_connected. cbv zeta. rewrite Hout.
  split_and!.
  - done.
  - rewrite session_eq. cbv zeta. cbn [fst snd].
    rewrite !app_assoc. apply last_snoc.
  - rewrite session_eq. cbv zeta. cbn [fst snd].
    rewrite !sleeps_app, stream_sleeps, Hout. done.
  - by rewrite session_count_calls.
Qed.

(** X11: the cloud keeps its number of points through a run, whatever is
    read, written or timed out. *)
Theorem run_keeps_cloud_size n script :
  length (data (cloud (run ids host port n script).1)) = length (data (cloud n)).
Proof.
  assert (∀ ts st, length (data (cloud (node (stream ids st ts).1.1))) =
                   length (data (cloud (node st)))) as Hstream.
  { induction ts as [|now0 ts|now0 d ts IH] using ticks_ind; intros st.
    - done.
    - by rewrite stream_timeout.
    - rewrite stream_tick. cbv zeta. cbn [fst].
      by rewrite IH, on_unit_length, stamp_cloud_data. }
  revert n. induction script as [|[|cfg range ts] script IH]; intros n.
  - done.
  - rewrite run_refused. cbn [fst]. apply IH.
  - rewrite run_connected. cbv zeta.
    assert (length (data (cloud (session ids host port n cfg range ts).1.1)) =
            length (data (cloud n))) as Hs.
    { rewrite session_eq. cbv zeta. cbn [fst]. by rewrite Hstream. }
    destruct (timed_out ts); cbn [fst]; [by rewrite IH|done].
Qed.
End Outer.

(** ** The further properties on concrete sessions *)

Lemma layer_topics_witness :
  (unknown_layer ∉ [L2; L3; L1; L4]) ∧
  layer_pubs !! getLayerIndex example_layers unknown_layer = Some "scan_layer_2" ∧
  layer_multi_pubs !! getLayerIndex example_layers unknown_layer =
    Some "scan_layer_2_multi".
Proof.
  assert (unknown_layer ∉ [L2; L3; L1; L4]) as Hout.
  { apply (bool_decide_unpack _). vm_compute. exact I. }
  split; [exact Hout|].
  destruct (layer_topics example_layers unknown_layer)
    as (_ & _ & _ & _ & _ & _ & _ & _ & _ & _ & H).
  exact (H Hout).
Defined.

Lemma getLayerIndex_inv_witness :
  getLayerIndex example_layers 250 = 2 ∧ (250 = L1)%Z.
Proof.
  destruct (getLayerIndex_inv example_layers 250) as (_ & [Hto Hfrom] & _).
  split; [exact (Hfrom eq_refl)|exact (Hto (Hfrom eq_refl))].
Defined.

Lemma cycle_cloud_witness :
  let st := synced_stream 6 3 in
  let mid := [tick 2%Z (unit_of L3 1 2)] in
  is_start example_layers (unit_of L2 1 1) = true ∧
  is_end example_layers (unit_of L4 1 4) = true ∧
  length (all_samples (unit_of L2 1 1 :: units mid ++ [unit_of L4 1 4]))
    ≤ length (data (cloud (node st))) ∧
  ∃ cl,
    clouds (stream example_layers st
              (tick 1%Z (unit_of L2 1 1) :: mid ++ [tick 3%Z (unit_of L4 1 4)])).1.2
      = [cl] ∧
    stamp cl = 3%Z ∧
    data cl = point_of <$> [1; 2; 4; 0; 0; 0]%Q.
Proof.
  cbv zeta.
  assert (Forall (λ t : Tick Q, ∃ d, read t = Some d ∧
                    is_start example_layers d = false ∧
                    is_end example_layers d = false)
            [tick 2%Z (unit_of L3 1 2)]) as Hmid.
  { repeat constructor. eexists. split; [reflexivity|]. split; reflexivity. }
  assert (length (all_samples
                    (unit_of L2 1 1 :: units [tick 2%Z (unit_of L3 1 2)]
                       ++ [unit_of L4 1 4]))
          ≤ length (data (cloud (node (synced_stream 6 3))))) as Hfit.
  { simpl. lia. }
  split; [reflexivity|]. split; [reflexivity|]. split; [exact Hfit|].
  destruct (cycle_cloud example_layers (synced_stream 6 3) 1%Z 3%Z
              (unit_of L2 1 1) (unit_of L4 1 4) [tick 2%Z (unit_of L3 1 2)]
              eq_refl eq_refl Hmid Hfit)
    as (cl & Hcl & Hstamp & Hdata).
  exists cl. split; [exact Hcl|]. split; [exact Hstamp|].
  rewrite Hdata. reflexivity.
Defined.

Lemma cursors_only_advance_witness :
  let st := synced_stream 2 1 in
  let ts := [tick 1%Z (unit_of L3 1 1); tick 2%Z (unit_of L1 1 1);
             tick 3%Z (unit_of L4 1 1)] in
  synced st = true ∧
  iters (stream example_layers st ts).1.1 = cursors_at 4 ∧
  length (data (cloud (node (stream example_layers st ts).1.1))) = 2.
Proof.
  cbv zeta.
  assert (Forall (λ t : Tick Q, ∃ d, read t = Some d ∧
                    is_start example_layers d = false)
            [tick 1%Z (unit_of L3 1 1); tick 2%Z (unit_of L1 1 1);
             tick 3%Z (unit_of L4 1 1)]) as Hts.
  { repeat constructor; eexists; (split; [reflexivity|reflexivity]). }
  destruct (cursors_only_advance example_layers (synced_stream 2 1) _ Hts eq_refl)
    as (Hit & Hlen).
  split; [reflexivity|]. split; [by rewrite Hit|by rewrite Hlen].
Defined.

Lemma run_ends_on_shutdown_witness :
  let ts := [tick 1%Z (unit_of L2 1 1)] in
  let r := run example_layers default_host default_port (small_node 4)
             [Connected example_cfg example_range ts; Refused] in
  timed_out ts = false ∧
  last r.2 = Some (Driver Disconnect) ∧
  sleeps r.2 = [] ∧
  count_calls is_connect r.2 = 1.
Proof.
  cbv zeta.
  destruct (run_ends_on_shutdown example_layers default_host default_port
              (small_node 4) example_cfg example_range
              [tick 1%Z (unit_of L2 1 1)] [Refused] eq_refl)
    as (_ & Hlast & Hsleeps & Hconnect).
  split; [reflexivity|]. split; [exact Hlast|]. split; [exact Hsleeps|exact Hconnect].
Defined.

Example accounts_example :
  let script :=
    [ Refused;
      Connected example_cfg example_range
        [tick 1%Z (unit_of L2 1 1); timeout 2%Z; tick 3%Z (unit_of L4 1 4)];
      Refused;
      Connected example_cfg example_range
        [tick 30%Z (unit_of L4 1 4); tick 31%Z (unit_of L2 1 1);
         tick 32%Z (unit_of L4 1 4)];
      Refused ] in
  let tr := (run example_layers default_host default_port (small_node 4) script).2 in
  attempts script = 4 ∧ length (sessions script) = 2 ∧
  count_calls is_connect tr = 4 ∧ count_calls is_login tr = 2 ∧
  count_calls is_disconnect tr = 2 ∧ length (spins tr) = 3 ∧
  length (clouds tr) = 1.
Proof. vm_compute. done. Qed.
